(** * ovirt_clusters: the cluster reconciler of cloud/ovirt/ovirt_clusters.py

    A shallow embedding of [ClustersModule] and [main].  Module
    parameters are a record with one optional field per entry of the
    argument spec; the SDK value objects ([otypes]) are records of
    optional fields, as the SDK leaves every attribute [None] unless it
    is given.  Methods that may raise or that talk to the engine run in
    the monad [Py]: they read the remote responses, log every request
    they issue and return a value or an exception. *)

From Stdlib Require Import String Ascii List ZArith Bool Lia.
From Stdlib Require Import Permutation.
From Stdlib Require DecimalString DecimalNat Sorted.
Import ListNotations.
Open Scope string_scope.
Open Scope Z_scope.

(** ** Python values and helpers *)

(** Truth value of an optional boolean ([None] and [False] are falsy). *)
Definition truthy (b : option bool) : bool :=
  match b with Some true => true | _ => false end.

(** [a or b] and [a and b] return one of their operands. *)
Definition py_or (a b : option bool) : option bool :=
  if truthy a then a else b.

Definition py_and (a b : option bool) : option bool :=
  if truthy a then b else a.

Definition py_not (a : option bool) : option bool :=
  Some (negb (truthy a)).

(** Truth value of an optional string / list: [None] and the empty
    value are falsy. *)
Definition str_truthy (s : option string) : bool :=
  match s with Some (String _ _) => true | _ => false end.

Definition list_truthy {A} (l : option (list A)) : bool :=
  match l with Some (_ :: _) => true | _ => false end.

Definition is_set {A} (o : option A) : bool :=
  match o with Some _ => true | None => false end.

(** [str(x)] for a value that is [None] or has the string form [image]. *)
Definition py_str {A} (image : A -> string) (o : option A) : string :=
  match o with Some a => image a | None => "None" end.

(** [s.split('.')] *)
Fixpoint split_dot (s : string) : list string :=
  match s with
  | EmptyString => [EmptyString]
  | String c r =>
      if Ascii.eqb c "."%char then EmptyString :: split_dot r
      else match split_dot r with
           | h :: t => String c h :: t
           | [] => [String c EmptyString]
           end
  end.

Definition is_space (c : ascii) : bool :=
  let n := nat_of_ascii c in
  (Nat.eqb n 32 || (Nat.leb 9 n && Nat.leb n 13))%bool.

Definition is_digit (c : ascii) : bool :=
  let n := nat_of_ascii c in (Nat.leb 48 n && Nat.leb n 57)%bool.

Fixpoint lstrip (s : string) : string :=
  match s with
  | String c r => if is_space c then lstrip r else s
  | EmptyString => EmptyString
  end.

(** Reads a run of decimal digits followed only by white space. *)
Fixpoint digits (acc : Z) (seen : bool) (s : string) : option Z :=
  match s with
  | EmptyString => if seen then Some acc else None
  | String c r =>
      if is_digit c then
        digits (10 * acc + Z.of_nat (nat_of_ascii c - 48)) true r
      else if (seen && is_space c && match lstrip r with EmptyString => true | _ => false end)%bool
           then Some acc else None
  end.

(** [sorted(l)] on strings: insertion sort by code point order. *)
Fixpoint insert_sorted (x : string) (l : list string) : list string :=
  match l with
  | [] => [x]
  | y :: t => if String.leb x y then x :: l else y :: insert_sorted x t
  end.

Definition sorted (l : list string) : list string :=
  fold_right insert_sorted [] l.

Fixpoint list_eqb {A} (eqb : A -> A -> bool) (l1 l2 : list A) : bool :=
  match l1, l2 with
  | [], [] => true
  | x :: t1, y :: t2 => (eqb x y && list_eqb eqb t1 t2)%bool
  | _, _ => false
  end.

(** ** Exceptions *)

Inductive exn :=
| AttributeError (attr : string)
| TypeError_not_iterable
| TypeError_attribute (attribute expected actual : string)
| ValueError (msg : string)
| IndexError
| Exception (msg : string)
| SdkError (msg : string).

(** [str(e)] *)
Definition exn_str (e : exn) : string :=
  match e with
  | AttributeError attr => "'NoneType' object has no attribute '" ++ attr ++ "'"
  | TypeError_not_iterable => "'NoneType' object is not iterable"
  | TypeError_attribute attribute expected actual =>
      "The type of attribute '" ++ attribute ++ "' should be '" ++ expected
      ++ "' but it is '" ++ actual ++ "'."
  | ValueError msg => msg
  | IndexError => "list index out of range"
  | Exception msg => msg
  | SdkError msg => msg
  end.

Inductive result (A : Type) :=
| Ok (a : A)
| Raise (e : exn).
Arguments Ok {A} a.
Arguments Raise {A} e.

(** [int(s)] for a decimal literal with optional sign and surrounding
    white space; anything else is a [ValueError]. *)
Definition py_int (s : string) : result Z :=
  let bad := Raise (ValueError ("invalid literal for int() with base 10: '" ++ s ++ "'")) in
  match lstrip s with
  | String "-" r => match digits 0 false r with Some z => Ok (- z) | None => bad end
  | String "+" r => match digits 0 false r with Some z => Ok z | None => bad end
  | r => match digits 0 false r with Some z => Ok z | None => bad end
  end.

Definition rbind {A B} (m : result A) (k : A -> result B) : result B :=
  match m with
  | Ok a => k a
  | Raise e => Raise e
  end.

Notation "x <~ m ;; k" := (rbind m (fun x => k))
  (at level 61, m at next level, right associativity).

(** ** The SDK's value types ([ovirtsdk4.types]) *)

Module otypes.

(** Enumerations; the [_image] functions below give the string each
    value prints as, which is also the string the argument spec offers
    as a choice. *)
Inductive SerialNumberPolicy := SNP_custom | SNP_host | SNP_vm.
Inductive InheritableBoolean := IB_false | IB_inherit | IB_true.
Inductive MigrationBandwidthAssignmentMethod := MB_auto | MB_custom | MB_hypervisor_default.
Inductive MigrateOnError := MOE_do_not_migrate | MOE_migrate | MOE_migrate_highly_available.
Inductive RngSource := RNG_hwrng | RNG_random.
Inductive SwitchType := ST_legacy | ST_ovs.
Inductive Architecture := AR_ppc64 | AR_undefined | AR_x86_64.

Module SchedulingPolicy.
Record t := mk { id : option string; name : option string }.
End SchedulingPolicy.

Module SerialNumber.
Record t := mk { policy : option SerialNumberPolicy; value : option string }.
End SerialNumber.

Module MigrationBandwidth.
Record t := mk {
  assignment_method : option MigrationBandwidthAssignmentMethod;
  custom_value : option Z
}.
End MigrationBandwidth.

Module MigrationPolicy.
Record t := mk { id : option string }.
End MigrationPolicy.

Module MigrationOptions.
Record t := mk {
  auto_converge : option InheritableBoolean;
  bandwidth : option MigrationBandwidth.t;
  compressed : option InheritableBoolean;
  policy : option MigrationPolicy.t
}.
End MigrationOptions.

Module ErrorHandling.
Record t := mk { on_error : option MigrateOnError }.
End ErrorHandling.

Module SkipIfConnectivityBroken.
Record t := mk { enabled : option bool; threshold : option Z }.
End SkipIfConnectivityBroken.

Module SkipIfSdActive.
Record t := mk { enabled : option bool }.
End SkipIfSdActive.

Module FencingPolicy.
Record t := mk {
  enabled : option bool;
  skip_if_connectivity_broken : option SkipIfConnectivityBroken.t;
  skip_if_sd_active : option SkipIfSdActive.t
}.
End FencingPolicy.

Module Display.
Record t := mk { proxy : option string }.
End Display.

Module MemoryOverCommit.
Record t := mk { percent : option Z }.
End MemoryOverCommit.

Module MemoryPolicy.
Record t := mk { over_commit : option MemoryOverCommit.t }.
End MemoryPolicy.

Module Ksm.
Record t := mk { enabled : option bool; merge_across_nodes : option bool }.
End Ksm.

Module DataCenter.
Record t := mk { name : option string }.
End DataCenter.

Module Network.
Record t := mk { name : option string }.
End Network.

Module Cpu.
Record t := mk { architecture : option Architecture; type : option string }.
End Cpu.

Module Version.
Record t := mk { major : option Z; minor : option Z }.
End Version.

Module Cluster.
Record t := mk {
  id : option string;
  name : option string;
  comment : option string;
  description : option string;
  ballooning_enabled : option bool;
  gluster_service : option bool;
  virt_service : option bool;
  threads_as_cores : option bool;
  ha_reservation : option bool;
  trusted_service : option bool;
  optional_reason : option bool;
  maintenance_reason_required : option bool;
  scheduling_policy : option SchedulingPolicy.t;
  serial_number : option SerialNumber.t;
  migration : option MigrationOptions.t;
  error_handling : option ErrorHandling.t;
  fencing_policy : option FencingPolicy.t;
  display : option Display.t;
  required_rng_sources : option (list RngSource);
  memory_policy : option MemoryPolicy.t;
  ksm : option Ksm.t;
  data_center : option DataCenter.t;
  management_network : option Network.t;
  cpu : option Cpu.t;
  version : option Version.t;
  switch_type : option SwitchType
  }.
End Cluster.

End otypes.
Import otypes.

Definition SerialNumberPolicy_image (x : SerialNumberPolicy) : string :=
  match x with SNP_custom => "custom" | SNP_host => "host" | SNP_vm => "vm" end.

Definition InheritableBoolean_image (x : InheritableBoolean) : string :=
  match x with IB_false => "false" | IB_inherit => "inherit" | IB_true => "true" end.

Definition MigrationBandwidthAssignmentMethod_image
  (x : MigrationBandwidthAssignmentMethod) : string :=
  match x with
  | MB_auto => "auto" | MB_custom => "custom" | MB_hypervisor_default => "hypervisor_default"
  end.

Definition MigrateOnError_image (x : MigrateOnError) : string :=
  match x with
  | MOE_do_not_migrate => "do_not_migrate"
  | MOE_migrate => "migrate"
  | MOE_migrate_highly_available => "migrate_highly_available"
  end.

Definition RngSource_image (x : RngSource) : string :=
  match x with RNG_hwrng => "hwrng" | RNG_random => "random" end.

Definition SwitchType_image (x : SwitchType) : string :=
  match x with ST_legacy => "legacy" | ST_ovs => "ovs" end.

Definition Architecture_image (x : Architecture) : string :=
  match x with AR_ppc64 => "ppc64" | AR_undefined => "undefined" | AR_x86_64 => "x86_64" end.

(** [otypes.SerialNumberPolicy(v)]: looking an enumeration up by value
    raises [ValueError] when there is no such member, as for [None]. *)
Definition SerialNumberPolicy_of (v : option SerialNumberPolicy) : result SerialNumberPolicy :=
  match v with
  | Some x => Ok x
  | None => Raise (ValueError "None is not a valid SerialNumberPolicy")
  end.

(** [otypes.RngSource(rng)] on a free-form list element. *)
Definition RngSource_of (rng : string) : result RngSource :=
  if String.eqb rng "hwrng" then Ok RNG_hwrng
  else if String.eqb rng "random" then Ok RNG_random
  else Raise (ValueError (rng ++ " is not a valid RngSource")).

(** ** Module parameters ([module.params], after the argument spec) *)

Inductive State := present | absent.

(** The choices of [cpu_arch].  Unlike the other choice parameters this
    one is never converted to the SDK's enumeration: it stays the
    string it is. *)
Inductive CpuArch := arch_ppc64 | arch_undefined | arch_x86_64.
Inductive MemoryPolicyChoice := mp_disabled | mp_server | mp_desktop.
Inductive MigrationPolicyChoice := legacy | minimal_downtime | suspend_workload.

Record Params := {
  state : State;
  name : string;
  ballooning : option bool;
  gluster : option bool;
  virt : option bool;
  threads_as_cores : option bool;
  ksm_numa : option bool;
  ksm : option bool;
  ha_reservation : option bool;
  trusted_service : option bool;
  vm_reason : option bool;
  host_reason : option bool;
  memory_policy : option MemoryPolicyChoice;
  rng_sources : option (list string);
  spice_proxy : option string;
  fence_enabled : option bool;
  fence_skip_if_sd_active : option bool;
  fence_skip_if_connectivity_broken : option bool;
  fence_connectivity_threshold : option Z;
  resilience_policy : option MigrateOnError;
  migration_bandwidth : option MigrationBandwidthAssignmentMethod;
  migration_bandwidth_limit : option Z;
  migration_auto_converge : option InheritableBoolean;
  migration_compressed : option InheritableBoolean;
  migration_policy : option MigrationPolicyChoice;
  serial_policy : option SerialNumberPolicy;
  serial_policy_value : option string;
  scheduling_policy : option string;
  datacenter : option string;
  description : option string;
  comment : option string;
  network : option string;
  cpu_arch : option CpuArch;
  cpu_type : option string;
  switch_type : option SwitchType;
  compatibility_version : option string
}.

Definition CpuArch_image (x : CpuArch) : string :=
  match x with
  | arch_ppc64 => "ppc64" | arch_undefined => "undefined" | arch_x86_64 => "x86_64"
  end.

(** ** Remote responses, requests and the monad *)

(** Requests the module sends through the SDK. *)
Inductive call :=
| ListSchedulingPolicies (name : option string)
| ListClusters (name : string)
| AddCluster (c : Cluster.t)
| UpdateCluster (id : option string) (c : Cluster.t)
| RemoveCluster (id : option string)
| CloseConnection.

(** What the engine answers.  [search_by_name] is one list request whose
    answer is the first match or [None]; every request may fail with an
    SDK error. *)
Record Remote := {
  sched_policy_by_name : option string -> result (option SchedulingPolicy.t);
  cluster_by_name : string -> result (option Cluster.t);
  add_response : Cluster.t -> result Cluster.t;
  update_response : option string -> Cluster.t -> result Cluster.t;
  remove_response : option string -> result unit
}.

Definition Py (A : Type) : Type := Remote -> list call * result A.

Definition ret {A} (a : A) : Py A := fun _ => ([], Ok a).

Definition raise {A} (e : exn) : Py A := fun _ => ([], Raise e).

Definition bind {A B} (m : Py A) (k : A -> Py B) : Py B :=
  fun w =>
    match m w with
    | (l, Ok a) => let '(l', r) := k a w in ((l ++ l')%list, r)
    | (l, Raise e) => (l, Raise e)
    end.

Definition lift {A} (r : result A) : Py A := fun _ => ([], r).

(** A request: logged, then answered by the engine. *)
Definition request {A} (c : call) (answer : Remote -> result A) : Py A :=
  fun w => ([c], answer w).

Notation "x <- m ;; k" := (bind m (fun x => k))
  (at level 61, m at next level, right associativity).

Definition calls {A} (r : list call * result A) : list call := fst r.
Definition outcome {A} (r : list call * result A) : result A := snd r.

(** [o.attr] where [o] may be [None]. *)
Definition getattr {A B} (o : option A) (attr : string) (f : A -> B) : Py B :=
  match o with
  | Some a => ret (f a)
  | None => raise (AttributeError attr)
  end.

(** [a and b]: [b] is evaluated only when [a] is true. *)
Definition and_then (a b : Py bool) : Py bool :=
  x <- a ;; if x then b else ret false.

Fixpoint and_chain (cs : list (Py bool)) : Py bool :=
  match cs with
  | [] => ret true
  | [c] => c
  | c :: rest => and_then c (and_chain rest)
  end.

(** [[f(x) for x in l]] where [f] may raise. *)
Fixpoint map_py {A B} (f : A -> result B) (l : list A) : result (list B) :=
  match l with
  | [] => Ok []
  | x :: t => y <~ f x ;; ys <~ map_py f t ;; Ok (y :: ys)
  end.

(** ** Helpers imported from ansible.module_utils.ovirt *)

(** Modelled from the spec: [equal] is imported from the framework and
    is not part of the sources.  The idempotency check compares a
    desired value with the current one and ignores a desired value that
    is [None]: [equal(p, v)] is [True] when [p is None], else [p == v]. *)
Definition equal {A} (eqb : A -> A -> bool) (param1 param2 : option A) : bool :=
  match param1 with
  | None => true
  | Some a => match param2 with Some b => eqb a b | None => false end
  end.

(** Modelled from the spec: [search_by_name] is imported from the
    framework and is not part of the sources.  A lookup by name is one
    request to the service, answered with the matching resource or
    [None]; here on the scheduling policies service and on the clusters
    service. *)
Definition search_sched_policy_by_name (n : option string) : Py (option SchedulingPolicy.t) :=
  request (ListSchedulingPolicies n) (fun w => sched_policy_by_name w n).

Definition search_cluster_by_name (n : string) : Py (option Cluster.t) :=
  request (ListClusters n) (fun w => cluster_by_name w n).

(** ** ClustersModule *)

(** The argument of [__get_major] / [__get_minor]: [None], a version
    object of the SDK, or a string such as ["4.0"]. *)
Inductive full_version :=
| FV_none
| FV_version (v : Version.t)
| FV_str (s : string).

Definition fv_of_param (o : option string) : full_version :=
  match o with Some s => FV_str s | None => FV_none end.

Definition fv_of_entity (o : option Version.t) : full_version :=
  match o with Some v => FV_version v | None => FV_none end.

Definition int_of_part (part : option string) : result (option Z) :=
  match part with
  | None => Raise IndexError
  | Some s => z <~ py_int s ;; Ok (Some z)
  end.

Definition __get_major (fv : full_version) : result (option Z) :=
  match fv with
  | FV_none => Ok None
  | FV_version v => Ok (Version.major v)
  | FV_str s => int_of_part (nth_error (split_dot s) 0)
  end.

Definition __get_minor (fv : full_version) : result (option Z) :=
  match fv with
  | FV_none => Ok None
  | FV_version v => Ok (Version.minor v)
  | FV_str s => int_of_part (nth_error (split_dot s) 1)
  end.

Definition _get_memory_policy (p : Params) : option Z :=
  match memory_policy p with
  | Some mp_desktop => Some 200
  | Some mp_server => Some 150
  | Some mp_disabled => Some 100
  | None => None
  end.

Definition _get_policy_id (p : Params) : option string :=
  match migration_policy p with
  | Some legacy => Some "00000000-0000-0000-0000-000000000000"
  | Some minimal_downtime => Some "80554327-0569-496b-bdeb-fcbbf52b827b"
  | Some suspend_workload => Some "80554327-0569-496b-bdeb-fcbbf52b827c"
  | None => None
  end.

Definition not_found_msg (p : Params) : string :=
  "Scheduling policy '" ++ py_str (fun s => s) (scheduling_policy p) ++ "' was not found".

Definition _get_sched_policy (p : Params) : Py (option SchedulingPolicy.t) :=
  if is_set (serial_policy p) then
    sched_policy <- search_sched_policy_by_name (scheduling_policy p) ;;
    match sched_policy with
    | None => raise (Exception (not_found_msg p))
    | Some _ => ret sched_policy
    end
  else ret None.

Definition build_serial_number (p : Params) : result (option SerialNumber.t) :=
  if (is_set (serial_policy p) || is_set (serial_policy_value p))%bool then
    policy <~ SerialNumberPolicy_of (serial_policy p) ;;
    Ok (Some (SerialNumber.mk (Some policy) (serial_policy_value p)))
  else Ok None.

Definition build_migration (p : Params) : option MigrationOptions.t :=
  if (is_set (migration_bandwidth p) || is_set (migration_bandwidth_limit p)
      || is_set (migration_auto_converge p) || is_set (migration_compressed p)
      || is_set (migration_policy p))%bool
  then Some (MigrationOptions.mk
    (migration_auto_converge p)
    (if (is_set (migration_bandwidth p)
         || match migration_bandwidth_limit p with Some z => negb (z =? 0) | None => false end)%bool
     then Some (MigrationBandwidth.mk (migration_bandwidth p) (migration_bandwidth_limit p))
     else None)
    (migration_compressed p)
    (if is_set (migration_policy p)
     then Some (MigrationPolicy.mk (_get_policy_id p)) else None))
  else None.

Definition build_fencing_policy (p : Params) : option FencingPolicy.t :=
  if (is_set (fence_enabled p) || is_set (fence_skip_if_sd_active p)
      || is_set (fence_skip_if_connectivity_broken p)
      || is_set (fence_connectivity_threshold p))%bool
  then Some (FencingPolicy.mk
    (py_or (py_or (fence_enabled p) (fence_skip_if_connectivity_broken p))
           (fence_skip_if_sd_active p))
    (if (is_set (fence_skip_if_connectivity_broken p)
         || is_set (fence_connectivity_threshold p))%bool
     then Some (SkipIfConnectivityBroken.mk (fence_skip_if_connectivity_broken p)
                                            (fence_connectivity_threshold p))
     else None)
    (if truthy (fence_skip_if_sd_active p)
     then Some (SkipIfSdActive.mk (fence_skip_if_sd_active p)) else None))
  else None.

Definition build_rng_sources (p : Params) : result (option (list RngSource)) :=
  match rng_sources p with
  | Some (x :: l) => srcs <~ map_py RngSource_of (x :: l) ;; Ok (Some srcs)
  | _ => Ok None
  end.

Definition build_ksm (p : Params) : option Ksm.t :=
  if (is_set (ksm_numa p) || is_set (ksm p))%bool
  then Some (Ksm.mk (py_or (ksm p) (ksm_numa p)) (py_not (ksm_numa p)))
  else None.

(** [otypes.Cpu(architecture=self.param('cpu_arch'), type=...)]: the
    SDK's value objects check the type of what they are given, and the
    [architecture] of a [Cpu] has to be an [Architecture], not the
    string the parameter holds; so a given [cpu_arch] is a
    [TypeError]. *)
Definition build_cpu (p : Params) : result (option Cpu.t) :=
  if (is_set (cpu_arch p) || str_truthy (cpu_type p))%bool then
    match cpu_arch p with
    | Some _ => Raise (TypeError_attribute "architecture" "Architecture" "str")
    | None => Ok (Some (Cpu.mk None (cpu_type p)))
    end
  else Ok None.

Definition build_version (p : Params) : result (option Version.t) :=
  if str_truthy (compatibility_version p) then
    major <~ __get_major (fv_of_param (compatibility_version p)) ;;
    minor <~ __get_minor (fv_of_param (compatibility_version p)) ;;
    Ok (Some (Version.mk major minor))
  else Ok None.

(** The [otypes.Cluster(...)] expression of [build_entity]; its keyword
    arguments are evaluated in source order, so the first conversion
    that raises decides the exception. *)
Definition build_cluster (p : Params) (sched_policy : option SchedulingPolicy.t)
  : result Cluster.t :=
  serial_number <~ build_serial_number p ;;
  required_rng_sources <~ build_rng_sources p ;;
  cpu <~ build_cpu p ;;
  version <~ build_version p ;;
  Ok {|
    Cluster.id := None;
    Cluster.name := Some (name p);
    Cluster.comment := comment p;
    Cluster.description := description p;
    Cluster.ballooning_enabled := ballooning p;
    Cluster.gluster_service := gluster p;
    Cluster.virt_service := virt p;
    Cluster.threads_as_cores := threads_as_cores p;
    Cluster.ha_reservation := ha_reservation p;
    Cluster.trusted_service := trusted_service p;
    Cluster.optional_reason := vm_reason p;
    Cluster.maintenance_reason_required := host_reason p;
    Cluster.scheduling_policy :=
      match sched_policy with
      | Some sp => Some (SchedulingPolicy.mk (SchedulingPolicy.id sp) None)
      | None => None
      end;
    Cluster.serial_number := serial_number;
    Cluster.migration := build_migration p;
    Cluster.error_handling :=
      if is_set (resilience_policy p)
      then Some (ErrorHandling.mk (resilience_policy p)) else None;
    Cluster.fencing_policy := build_fencing_policy p;
    Cluster.display :=
      if str_truthy (spice_proxy p) then Some (Display.mk (spice_proxy p)) else None;
    Cluster.required_rng_sources := required_rng_sources;
    Cluster.memory_policy :=
      if is_set (memory_policy p)
      then Some (MemoryPolicy.mk (Some (MemoryOverCommit.mk (_get_memory_policy p))))
      else None;
    Cluster.ksm := build_ksm p;
    Cluster.data_center :=
      if str_truthy (datacenter p) then Some (DataCenter.mk (datacenter p)) else None;
    Cluster.management_network :=
      if str_truthy (network p) then Some (Network.mk (network p)) else None;
    Cluster.cpu := cpu;
    Cluster.version := version;
    Cluster.switch_type := switch_type p
  |}.

Definition build_entity (p : Params) : Py Cluster.t :=
  sched_policy <- _get_sched_policy p ;;
  lift (build_cluster p sched_policy).

(** Comparison of a choice parameter with [str(v)]. *)
Definition equal_str {A} (image : A -> string) (param : option A) (v : option A) : bool :=
  equal String.eqb (option_map image param) (Some (py_str image v)).

Definition getattr2 {A B C} (o : option A) (a1 : string) (f1 : A -> option B)
  (a2 : string) (f2 : B -> C) : Py C :=
  x <- getattr o a1 f1 ;; getattr x a2 f2.

(** [equal(self.param('scheduling_policy'), self._get_sched_policy().name)],
    the one operand of [update_check] that talks to the engine. *)
Definition sched_policy_operand (p : Params) : Py bool :=
  sched_policy <- _get_sched_policy p ;;
  n <- getattr sched_policy "name" SchedulingPolicy.name ;;
  ret (equal String.eqb (scheduling_policy p) n).

(** The operands of [update_check]'s conjunction, in source order. *)
Definition update_check_operands (p : Params) (entity : Cluster.t) : list (Py bool) :=
  [ ret (equal String.eqb (comment p) (Cluster.comment entity));
    ret (equal String.eqb (description p) (Cluster.description entity));
    ret (equal_str SwitchType_image (switch_type p) (Cluster.switch_type entity));
    (a <- getattr (Cluster.cpu entity) "architecture" Cpu.architecture ;;
     ret (equal String.eqb (option_map CpuArch_image (cpu_arch p))
            (Some (py_str Architecture_image a))));
    (t <- getattr (Cluster.cpu entity) "type" Cpu.type ;;
     ret (equal String.eqb (cpu_type p) t));
    ret (equal Bool.eqb (ballooning p) (Cluster.ballooning_enabled entity));
    ret (equal Bool.eqb (gluster p) (Cluster.gluster_service entity));
    ret (equal Bool.eqb (virt p) (Cluster.virt_service entity));
    ret (equal Bool.eqb (threads_as_cores p) (Cluster.threads_as_cores entity));
    (m <- getattr (Cluster.ksm entity) "merge_across_nodes" Ksm.merge_across_nodes ;;
     en <- (if truthy (py_not m)
            then getattr (Cluster.ksm entity) "enabled" Ksm.enabled
            else ret None) ;;
     ret (equal Bool.eqb (ksm_numa p) (py_and (py_not m) en)));
    (m <- getattr (Cluster.ksm entity) "merge_across_nodes" Ksm.merge_across_nodes ;;
     en <- (if truthy m
            then getattr (Cluster.ksm entity) "enabled" Ksm.enabled
            else ret None) ;;
     ret (equal Bool.eqb (ksm p) (py_and m en)));
    ret (equal Bool.eqb (ha_reservation p) (Cluster.ha_reservation entity));
    ret (equal Bool.eqb (trusted_service p) (Cluster.trusted_service entity));
    ret (equal Bool.eqb (host_reason p) (Cluster.maintenance_reason_required entity));
    ret (equal Bool.eqb (vm_reason p) (Cluster.optional_reason entity));
    ret (equal String.eqb (spice_proxy p)
           (match Cluster.display entity with Some d => Display.proxy d | None => None end));
    (en <- getattr (Cluster.fencing_policy entity) "enabled" FencingPolicy.enabled ;;
     ret (equal Bool.eqb (fence_enabled p) en));
    (en <- getattr2 (Cluster.fencing_policy entity)
             "skip_if_sd_active" FencingPolicy.skip_if_sd_active
             "enabled" SkipIfSdActive.enabled ;;
     ret (equal Bool.eqb (fence_skip_if_sd_active p) en));
    (en <- getattr2 (Cluster.fencing_policy entity)
             "skip_if_connectivity_broken" FencingPolicy.skip_if_connectivity_broken
             "enabled" SkipIfConnectivityBroken.enabled ;;
     ret (equal Bool.eqb (fence_skip_if_connectivity_broken p) en));
    (th <- getattr2 (Cluster.fencing_policy entity)
             "skip_if_connectivity_broken" FencingPolicy.skip_if_connectivity_broken
             "threshold" SkipIfConnectivityBroken.threshold ;;
     ret (equal Z.eqb (fence_connectivity_threshold p) th));
    (oe <- getattr (Cluster.error_handling entity) "on_error" ErrorHandling.on_error ;;
     ret (equal_str MigrateOnError_image (resilience_policy p) oe));
    (am <- getattr2 (Cluster.migration entity)
             "bandwidth" MigrationOptions.bandwidth
             "assignment_method" MigrationBandwidth.assignment_method ;;
     ret (equal_str MigrationBandwidthAssignmentMethod_image (migration_bandwidth p) am));
    (ac <- getattr (Cluster.migration entity) "auto_converge" MigrationOptions.auto_converge ;;
     ret (equal_str InheritableBoolean_image (migration_auto_converge p) ac));
    (co <- getattr (Cluster.migration entity) "compressed" MigrationOptions.compressed ;;
     ret (equal_str InheritableBoolean_image (migration_compressed p) co));
    (sp <- getattr (Cluster.serial_number entity) "policy" SerialNumber.policy ;;
     ret (equal_str SerialNumberPolicy_image (serial_policy p) sp));
    (v <- getattr (Cluster.serial_number entity) "value" SerialNumber.value ;;
     ret (equal String.eqb (serial_policy_value p) v));
    sched_policy_operand p;
    (i <- getattr2 (Cluster.migration entity)
            "policy" MigrationOptions.policy "id" MigrationPolicy.id ;;
     ret (equal String.eqb (_get_policy_id p) i));
    (pc <- getattr2 (Cluster.memory_policy entity)
             "over_commit" MemoryPolicy.over_commit "percent" MemoryOverCommit.percent ;;
     ret (equal Z.eqb (_get_memory_policy p) pc));
    (want <- lift (__get_minor (fv_of_param (compatibility_version p))) ;;
     have <- lift (__get_minor (fv_of_entity (Cluster.version entity))) ;;
     ret (equal Z.eqb want have));
    (want <- lift (__get_major (fv_of_param (compatibility_version p))) ;;
     have <- lift (__get_major (fv_of_entity (Cluster.version entity))) ;;
     ret (equal Z.eqb want have));
    (cv <- getattr2 (Cluster.migration entity)
             "bandwidth" MigrationOptions.bandwidth
             "custom_value" MigrationBandwidth.custom_value ;;
     ret (equal Z.eqb
            (match migration_bandwidth p with
             | Some MB_custom => migration_bandwidth_limit p
             | _ => None
             end) cv));
    (srcs <- match Cluster.required_rng_sources entity with
             | Some l => ret (map RngSource_image l)
             | None => raise TypeError_not_iterable
             end ;;
     ret (equal (list_eqb String.eqb)
            (match rng_sources p with
             | Some (x :: l) => Some (sorted (x :: l))
             | _ => None
             end)
            (Some (sorted srcs)))) ].

Definition update_check (p : Params) (entity : Cluster.t) : Py bool :=
  and_chain (update_check_operands p entity).

(** ** The reconciler of the framework and [main] *)

(** What the module hands to [exit_json]: the change flag, the cluster's
    id and its attribute dictionary (here the cluster value itself). *)
Record Ret := {
  changed : bool;
  ret_id : option string;
  ret_cluster : option Cluster.t
}.

Definition representation (chg : bool) (c : Cluster.t) : Ret :=
  {| changed := chg; ret_id := Cluster.id c; ret_cluster := Some c |}.

(** Modelled from the spec: [BaseModule.create] belongs to the framework
    and is not part of the sources.  The reconciler looks the resource
    up by name; if it exists and some tracked field differs (as decided
    by [update_check]) it updates it with the built entity, if it does
    not exist it creates it from the built entity; it returns the
    resulting resource representation.  The framework's check mode is
    not modelled. *)
Definition create (p : Params) : Py Ret :=
  found <- search_cluster_by_name (name p) ;;
  match found with
  | Some entity =>
      same <- update_check p entity ;;
      if same then ret (representation false entity)
      else
        desired <- build_entity p ;;
        updated <- request (UpdateCluster (Cluster.id entity) desired)
                     (fun w => update_response w (Cluster.id entity) desired) ;;
        ret (representation true updated)
  | None =>
      desired <- build_entity p ;;
      added <- request (AddCluster desired) (fun w => add_response w desired) ;;
      ret (representation true added)
  end.

(** Modelled from the spec: [BaseModule.remove] belongs to the framework
    and is not part of the sources.  The reconciler looks the resource
    up by name and deletes it; the module's RETURN documentation gives
    the id and the attribute dictionary "on success if cluster is
    found", so without a match nothing is deleted and neither is
    returned. *)
Definition remove (p : Params) : Py Ret :=
  found <- search_cluster_by_name (name p) ;;
  match found with
  | Some entity =>
      _ <- request (RemoveCluster (Cluster.id entity))
             (fun w => remove_response w (Cluster.id entity)) ;;
      ret (representation true entity)
  | None => ret {| changed := false; ret_id := None; ret_cluster := None |}
  end.

(** How the module run ends. *)
Inductive exit :=
| exit_json (r : Ret)
| fail_json (msg : string).

(** [main], from the point where the connection is open: dispatch on
    [state] to the framework's [create] or [remove], hand the result to
    [exit_json], turn any exception into [fail_json(msg=str(e))], and
    close the connection in every case.  The traceback text passed next
    to [msg] is not modelled. *)
Definition dispatch (create remove : Params -> Py Ret) (p : Params) : Py Ret :=
  match state p with
  | present => create p
  | absent => remove p
  end.

Definition main_with (create remove : Params -> Py Ret) (p : Params) (w : Remote)
  : list call * exit :=
  let '(log, r) := dispatch create remove p w in
  ((log ++ [CloseConnection])%list,
   match r with
   | Ok r => exit_json r
   | Raise e => fail_json (exn_str e)
   end).

Definition main : Params -> Remote -> list call * exit := main_with create remove.

(** Requests that change the engine's state. *)
Definition is_write (c : call) : bool :=
  match c with
  | AddCluster _ | UpdateCluster _ _ | RemoveCluster _ => true
  | _ => false
  end.

Definition writes (l : list call) : list call := filter is_write l.

(** ** The declarative reading of the idempotency check *)

Scheme Equality for SerialNumberPolicy.
Scheme Equality for InheritableBoolean.
Scheme Equality for MigrationBandwidthAssignmentMethod.
Scheme Equality for MigrateOnError.
Scheme Equality for SwitchType.
Scheme Equality for Architecture.

(** [o.f] read as [None] when [o] itself is [None]. *)
Definition nav {A B} (o : option A) (f : A -> option B) : option B :=
  match o with Some a => f a | None => None end.

(** One tracked field: was the parameter given, and is it unspecified
    or equal to the current value. *)
Record comparison := { specified : bool; agrees : bool }.

Definition compare_with {A} (eqb : A -> A -> bool) (desired current : option A) : comparison :=
  {| specified := is_set desired;
     agrees := match desired with
               | None => true
               | Some d => match current with Some c => eqb d c | None => false end
               end |}.

(** The architecture a [cpu_arch] choice names. *)
Definition Architecture_named (a : CpuArch) : Architecture :=
  match a with
  | arch_ppc64 => AR_ppc64 | arch_undefined => AR_undefined | arch_x86_64 => AR_x86_64
  end.

Definition parsed (r : result (option Z)) : option Z :=
  match r with Ok z => z | Raise _ => None end.

Definition current_rng_sources (e : Cluster.t) : option (list string) :=
  option_map (fun l => sorted (map RngSource_image l)) (Cluster.required_rng_sources e).

(** The tracked fields that come before [scheduling_policy], parameter
    against current value. *)
Definition comparisons_before_policy (p : Params) (e : Cluster.t) : list comparison :=
  let cpu := Cluster.cpu e in
  let ksm' := Cluster.ksm e in
  let fp := Cluster.fencing_policy e in
  let mig := Cluster.migration e in
  let sn := Cluster.serial_number e in
  [ compare_with String.eqb (comment p) (Cluster.comment e);
    compare_with String.eqb (description p) (Cluster.description e);
    compare_with SwitchType_beq (switch_type p) (Cluster.switch_type e);
    compare_with Architecture_beq (option_map Architecture_named (cpu_arch p))
      (nav cpu Cpu.architecture);
    compare_with String.eqb (cpu_type p) (nav cpu Cpu.type);
    compare_with Bool.eqb (ballooning p) (Cluster.ballooning_enabled e);
    compare_with Bool.eqb (gluster p) (Cluster.gluster_service e);
    compare_with Bool.eqb (virt p) (Cluster.virt_service e);
    compare_with Bool.eqb (threads_as_cores p) (Cluster.threads_as_cores e);
    compare_with Bool.eqb (ksm_numa p)
      (py_and (py_not (nav ksm' Ksm.merge_across_nodes)) (nav ksm' Ksm.enabled));
    compare_with Bool.eqb (ksm p)
      (py_and (nav ksm' Ksm.merge_across_nodes) (nav ksm' Ksm.enabled));
    compare_with Bool.eqb (ha_reservation p) (Cluster.ha_reservation e);
    compare_with Bool.eqb (trusted_service p) (Cluster.trusted_service e);
    compare_with Bool.eqb (host_reason p) (Cluster.maintenance_reason_required e);
    compare_with Bool.eqb (vm_reason p) (Cluster.optional_reason e);
    compare_with String.eqb (spice_proxy p) (nav (Cluster.display e) Display.proxy);
    compare_with Bool.eqb (fence_enabled p) (nav fp FencingPolicy.enabled);
    compare_with Bool.eqb (fence_skip_if_sd_active p)
      (nav (nav fp FencingPolicy.skip_if_sd_active) SkipIfSdActive.enabled);
    compare_with Bool.eqb (fence_skip_if_connectivity_broken p)
      (nav (nav fp FencingPolicy.skip_if_connectivity_broken) SkipIfConnectivityBroken.enabled);
    compare_with Z.eqb (fence_connectivity_threshold p)
      (nav (nav fp FencingPolicy.skip_if_connectivity_broken) SkipIfConnectivityBroken.threshold);
    compare_with MigrateOnError_beq (resilience_policy p)
      (nav (Cluster.error_handling e) ErrorHandling.on_error);
    compare_with MigrationBandwidthAssignmentMethod_beq (migration_bandwidth p)
      (nav (nav mig MigrationOptions.bandwidth) MigrationBandwidth.assignment_method);
    compare_with InheritableBoolean_beq (migration_auto_converge p)
      (nav mig MigrationOptions.auto_converge);
    compare_with InheritableBoolean_beq (migration_compressed p)
      (nav mig MigrationOptions.compressed);
    compare_with SerialNumberPolicy_beq (serial_policy p) (nav sn SerialNumber.policy);
    compare_with String.eqb (serial_policy_value p) (nav sn SerialNumber.value) ].

(** The tracked fields between [scheduling_policy] and the last two. *)
Definition comparisons_after_policy (p : Params) (e : Cluster.t) : list comparison :=
  [ compare_with String.eqb (_get_policy_id p)
      (nav (nav (Cluster.migration e) MigrationOptions.policy) MigrationPolicy.id);
    compare_with Z.eqb (_get_memory_policy p)
      (nav (nav (Cluster.memory_policy e) MemoryPolicy.over_commit) MemoryOverCommit.percent);
    compare_with Z.eqb (parsed (__get_minor (fv_of_param (compatibility_version p))))
      (nav (Cluster.version e) Version.minor);
    compare_with Z.eqb (parsed (__get_major (fv_of_param (compatibility_version p))))
      (nav (Cluster.version e) Version.major) ].

(** The last two fields with the guards of the source: the bandwidth
    limit counts only with [migration_bandwidth = custom], an empty
    [rng_sources] list counts as not given. *)
Definition guarded_comparisons (p : Params) (e : Cluster.t) : list comparison :=
  [ compare_with Z.eqb
      (match migration_bandwidth p with
       | Some MB_custom => migration_bandwidth_limit p
       | _ => None
       end)
      (nav (nav (Cluster.migration e) MigrationOptions.bandwidth)
           MigrationBandwidth.custom_value);
    compare_with (list_eqb String.eqb)
      (if list_truthy (rng_sources p) then option_map sorted (rng_sources p) else None)
      (current_rng_sources e) ].

(** The check as the claim words it: every tracked parameter, when
    given, has to equal the entity's current value; for
    [scheduling_policy] that is the name of the scheduling policy the
    entity has. *)
Definition claimed_comparisons (p : Params) (e : Cluster.t) : list comparison :=
  (comparisons_before_policy p e ++
   [ compare_with String.eqb (scheduling_policy p)
       (nav (Cluster.scheduling_policy e) SchedulingPolicy.name) ] ++
   comparisons_after_policy p e ++
   [ compare_with Z.eqb (migration_bandwidth_limit p)
       (nav (nav (Cluster.migration e) MigrationOptions.bandwidth)
            MigrationBandwidth.custom_value);
     compare_with (list_eqb String.eqb) (option_map sorted (rng_sources p))
       (current_rng_sources e) ])%list.

(** The tracked fields other than [scheduling_policy], with the guards
    of the source on the last two. *)
Definition tracked_comparisons (p : Params) (e : Cluster.t) : list comparison :=
  (comparisons_before_policy p e ++ comparisons_after_policy p e
   ++ guarded_comparisons p e)%list.

(** The scheduling policy the engine reports for the name in the
    [scheduling_policy] parameter, looked up only when [serial_policy]
    is given. *)
Definition looked_up_policy (w : Remote) (p : Params) : option SchedulingPolicy.t :=
  match serial_policy p with
  | Some _ =>
      match sched_policy_by_name w (scheduling_policy p) with
      | Ok (Some sp) => Some sp
      | _ => None
      end
  | None => None
  end.

(** What the operands of [update_check] compute when they return, in
    source order.  The operand for [scheduling_policy] does not read the
    entity: it compares the parameter with the name of the policy just
    looked up under that name, so it is no part of
    [tracked_comparisons]. *)
Definition operand_comparisons (w : Remote) (p : Params) (e : Cluster.t) : list comparison :=
  (comparisons_before_policy p e ++
   [ compare_with String.eqb (scheduling_policy p)
       (nav (looked_up_policy w p) SchedulingPolicy.name) ] ++
   comparisons_after_policy p e ++ guarded_comparisons p e)%list.

(** Every nested object [update_check] reads through is there. *)
Definition populated (e : Cluster.t) : bool :=
  (is_set (Cluster.cpu e) && is_set (Cluster.ksm e)
   && is_set (nav (Cluster.fencing_policy e) FencingPolicy.skip_if_sd_active)
   && is_set (nav (Cluster.fencing_policy e) FencingPolicy.skip_if_connectivity_broken)
   && is_set (Cluster.error_handling e)
   && is_set (nav (Cluster.migration e) MigrationOptions.bandwidth)
   && is_set (nav (Cluster.migration e) MigrationOptions.policy)
   && is_set (Cluster.serial_number e)
   && is_set (nav (Cluster.memory_policy e) MemoryPolicy.over_commit)
   && is_set (Cluster.required_rng_sources e))%bool.

Definition is_ok {A} (r : result A) : bool :=
  match r with Ok _ => true | Raise _ => false end.

Definition version_parses (p : Params) : bool :=
  (is_ok (__get_major (fv_of_param (compatibility_version p)))
   && is_ok (__get_minor (fv_of_param (compatibility_version p))))%bool.

(** ** The parameter groups of [build_entity] *)

Inductive group :=
| G_scheduling_policy | G_serial_number | G_migration | G_error_handling
| G_fencing_policy | G_display | G_required_rng_sources | G_memory_policy
| G_ksm | G_data_center | G_management_network | G_cpu | G_version
| G_switch_type.

(** At least one parameter of the group is given (is not [None]). *)
Definition group_set (g : group) (p : Params) : bool :=
  match g with
  | G_scheduling_policy => is_set (scheduling_policy p)
  | G_serial_number => is_set (serial_policy p) || is_set (serial_policy_value p)
  | G_migration =>
      is_set (migration_bandwidth p) || is_set (migration_bandwidth_limit p)
      || is_set (migration_auto_converge p) || is_set (migration_compressed p)
      || is_set (migration_policy p)
  | G_error_handling => is_set (resilience_policy p)
  | G_fencing_policy =>
      is_set (fence_enabled p) || is_set (fence_skip_if_sd_active p)
      || is_set (fence_skip_if_connectivity_broken p)
      || is_set (fence_connectivity_threshold p)
  | G_display => is_set (spice_proxy p)
  | G_required_rng_sources => is_set (rng_sources p)
  | G_memory_policy => is_set (memory_policy p)
  | G_ksm => is_set (ksm_numa p) || is_set (ksm p)
  | G_data_center => is_set (datacenter p)
  | G_management_network => is_set (network p)
  | G_cpu => is_set (cpu_arch p) || is_set (cpu_type p)
  | G_version => is_set (compatibility_version p)
  | G_switch_type => is_set (switch_type p)
  end%bool.

(** At least one parameter of the group is given and, where the source
    tests the value itself, is not the empty string or the empty list. *)
Definition group_nonempty (g : group) (p : Params) : bool :=
  match g with
  | G_display => str_truthy (spice_proxy p)
  | G_required_rng_sources => list_truthy (rng_sources p)
  | G_data_center => str_truthy (datacenter p)
  | G_management_network => str_truthy (network p)
  | G_cpu => is_set (cpu_arch p) || str_truthy (cpu_type p)
  | G_version => str_truthy (compatibility_version p)
  | _ => group_set g p
  end%bool.

Definition group_present (g : group) (c : Cluster.t) : bool :=
  match g with
  | G_scheduling_policy => is_set (Cluster.scheduling_policy c)
  | G_serial_number => is_set (Cluster.serial_number c)
  | G_migration => is_set (Cluster.migration c)
  | G_error_handling => is_set (Cluster.error_handling c)
  | G_fencing_policy => is_set (Cluster.fencing_policy c)
  | G_display => is_set (Cluster.display c)
  | G_required_rng_sources => is_set (Cluster.required_rng_sources c)
  | G_memory_policy => is_set (Cluster.memory_policy c)
  | G_ksm => is_set (Cluster.ksm c)
  | G_data_center => is_set (Cluster.data_center c)
  | G_management_network => is_set (Cluster.management_network c)
  | G_cpu => is_set (Cluster.cpu c)
  | G_version => is_set (Cluster.version c)
  | G_switch_type => is_set (Cluster.switch_type c)
  end.

(** The sub-object of a group, when there, carries the group's
    parameters. *)
Definition group_content (g : group) (p : Params) (c : Cluster.t) : Prop :=
  match g with
  | G_scheduling_policy => True
  | G_serial_number =>
      forall s, Cluster.serial_number c = Some s ->
        s = SerialNumber.mk (serial_policy p) (serial_policy_value p)
  | G_migration =>
      forall m, Cluster.migration c = Some m ->
        MigrationOptions.auto_converge m = migration_auto_converge p /\
        MigrationOptions.compressed m = migration_compressed p /\
        MigrationOptions.bandwidth m =
          (if (is_set (migration_bandwidth p)
               || match migration_bandwidth_limit p with
                  | Some z => negb (z =? 0)
                  | None => false
                  end)%bool
           then Some (MigrationBandwidth.mk (migration_bandwidth p)
                        (migration_bandwidth_limit p))
           else None) /\
        MigrationOptions.policy m =
          (if is_set (migration_policy p)
           then Some (MigrationPolicy.mk (_get_policy_id p)) else None)
  | G_error_handling =>
      forall x, Cluster.error_handling c = Some x ->
        x = ErrorHandling.mk (resilience_policy p)
  | G_fencing_policy =>
      forall f, Cluster.fencing_policy c = Some f ->
        FencingPolicy.enabled f =
          py_or (py_or (fence_enabled p) (fence_skip_if_connectivity_broken p))
                (fence_skip_if_sd_active p) /\
        FencingPolicy.skip_if_connectivity_broken f =
          (if (is_set (fence_skip_if_connectivity_broken p)
               || is_set (fence_connectivity_threshold p))%bool
           then Some (SkipIfConnectivityBroken.mk (fence_skip_if_connectivity_broken p)
                        (fence_connectivity_threshold p))
           else None) /\
        FencingPolicy.skip_if_sd_active f =
          (if truthy (fence_skip_if_sd_active p)
           then Some (SkipIfSdActive.mk (fence_skip_if_sd_active p)) else None)
  | G_display =>
      forall d, Cluster.display c = Some d -> d = Display.mk (spice_proxy p)
  | G_required_rng_sources =>
      forall l, Cluster.required_rng_sources c = Some l ->
        rng_sources p = Some (map RngSource_image l)
  | G_memory_policy =>
      forall m, Cluster.memory_policy c = Some m ->
        m = MemoryPolicy.mk (Some (MemoryOverCommit.mk (_get_memory_policy p)))
  | G_ksm =>
      forall k, Cluster.ksm c = Some k ->
        k = Ksm.mk (py_or (ksm p) (ksm_numa p)) (py_not (ksm_numa p))
  | G_data_center =>
      forall d, Cluster.data_center c = Some d -> d = DataCenter.mk (datacenter p)
  | G_management_network =>
      forall n, Cluster.management_network c = Some n -> n = Network.mk (network p)
  | G_cpu =>
      forall x, Cluster.cpu c = Some x -> x = Cpu.mk None (cpu_type p)
  | G_version =>
      forall v, Cluster.version c = Some v ->
        __get_major (fv_of_param (compatibility_version p)) = Ok (Version.major v) /\
        __get_minor (fv_of_param (compatibility_version p)) = Ok (Version.minor v)
  | G_switch_type => Cluster.switch_type c = switch_type p
  end.

(** The parameter conversions of [build_entity] all succeed. *)
Definition well_formed (p : Params) : bool :=
  ((is_set (serial_policy p) || negb (is_set (serial_policy_value p)))
   && match rng_sources p with
      | Some l => forallb (fun s => String.eqb s "hwrng" || String.eqb s "random") l
      | None => true
      end
   && negb (is_set (cpu_arch p))
   && (negb (str_truthy (compatibility_version p)) || version_parses p))%bool.

(** The scheduling-policy lookup of [_get_sched_policy], if any, finds a
    policy. *)
Definition sched_lookup_ok (w : Remote) (p : Params) : bool :=
  match serial_policy p with
  | None => true
  | Some _ =>
      match sched_policy_by_name w (scheduling_policy p) with
      | Ok (Some _) => true
      | _ => false
      end
  end.

(** ** Properties of computations used below *)

(** An operand of the conjunction computes a comparison when it
    returns. *)
Definition refines (w : Remote) (op : Py bool) (c : comparison) : Prop :=
  forall b, outcome (op w) = Ok b -> b = agrees c.

(** An operand returns a value. *)
Definition returns (w : Remote) (op : Py bool) : Prop :=
  exists b, outcome (op w) = Ok b.

(** A computation that sends nothing and does not look at the engine. *)
Definition pure {A} (m : Py A) : Prop := exists r, forall w, m w = ([], r).

(** Lookups, as opposed to writes. *)
Definition is_lookup (c : call) : bool :=
  match c with
  | ListSchedulingPolicies _ | ListClusters _ => true
  | _ => false
  end.

(** ** Sample inputs *)

(** Parameters with everything left out but the listed ones. *)
Definition params_sample (st : State) (nm : string)
  (serial : option SerialNumberPolicy) (sched proxy : option string)
  (k kn : option bool) (ctype : option string) (limit : option Z)
  (mem : option MemoryPolicyChoice) : Params := {|
  state := st; name := nm;
  ballooning := None; gluster := None; virt := None; threads_as_cores := None;
  ksm_numa := kn; ksm := k; ha_reservation := None; trusted_service := None;
  vm_reason := None; host_reason := None; memory_policy := mem; rng_sources := None;
  spice_proxy := proxy; fence_enabled := None; fence_skip_if_sd_active := None;
  fence_skip_if_connectivity_broken := None; fence_connectivity_threshold := None;
  resilience_policy := None; migration_bandwidth := None;
  migration_bandwidth_limit := limit; migration_auto_converge := None;
  migration_compressed := None; migration_policy := None; serial_policy := serial;
  serial_policy_value := None; scheduling_policy := sched; datacenter := None;
  description := None; comment := None; network := None; cpu_arch := None;
  cpu_type := ctype; switch_type := None; compatibility_version := None
|}.

(** Only the required [name] is given. *)
Definition params_minimal : Params :=
  params_sample present "mycluster" None None None None None None None None.

(** [serial_policy: vm] and [scheduling_policy: none]. *)
Definition params_policy : Params :=
  params_sample present "mycluster" (Some SNP_vm) (Some "none") None None None None None None.

(** As [params_policy], with [migration_bandwidth_limit: 5] but no
    [migration_bandwidth]. *)
Definition params_limit : Params :=
  params_sample present "mycluster" (Some SNP_vm) (Some "none") None None None None (Some 5) None.

(** As [params_policy], with [memory_policy: server]. *)
Definition params_memory : Params :=
  params_sample present "mycluster" (Some SNP_vm) (Some "none") None None None None None
    (Some mp_server).

(** [scheduling_policy: none] without [serial_policy]. *)
Definition params_sched_only : Params :=
  params_sample present "mycluster" None (Some "none") None None None None None None.

(** [spice_proxy: ""]. *)
Definition params_empty_proxy : Params :=
  params_sample present "mycluster" None None (Some "") None None None None None.

(** [cpu_type: Intel Nehalem Family], [ksm: true], [ksm_numa: true]. *)
Definition params_ksm : Params :=
  params_sample present "mycluster" None None None (Some true) (Some true)
    (Some "Intel Nehalem Family") None None.

(** [state: absent] for a cluster the engine knows, and for one it does
    not know. *)
Definition params_absent : Params :=
  params_sample absent "mycluster" None None None None None None None None.

Definition params_absent_unknown : Params :=
  params_sample absent "ghost" None None None None None None None None.

(** A new cluster "fresh". *)
Definition params_fresh : Params :=
  params_sample present "fresh" None None None None None None None None.

(** A cluster as the engine reports it, with the given scheduling
    policy and [cpu] and every other nested object there. *)
Definition cluster_sample_with (sched : option SchedulingPolicy.t) (cpu : option Cpu.t)
  : Cluster.t := {|
  Cluster.id := Some "7de90f31-222c-436c-a1ca-7e655bd5b60c";
  Cluster.name := Some "mycluster";
  Cluster.comment := Some "";
  Cluster.description := Some "mycluster";
  Cluster.ballooning_enabled := Some true;
  Cluster.gluster_service := Some false;
  Cluster.virt_service := Some true;
  Cluster.threads_as_cores := Some false;
  Cluster.ha_reservation := Some false;
  Cluster.trusted_service := Some false;
  Cluster.optional_reason := Some false;
  Cluster.maintenance_reason_required := Some false;
  Cluster.scheduling_policy := sched;
  Cluster.serial_number := Some (SerialNumber.mk (Some SNP_vm) None);
  Cluster.migration :=
    Some (MigrationOptions.mk (Some IB_inherit)
            (Some (MigrationBandwidth.mk (Some MB_custom) (Some 10)))
            (Some IB_inherit)
            (Some (MigrationPolicy.mk (Some "00000000-0000-0000-0000-000000000000"))));
  Cluster.error_handling := Some (ErrorHandling.mk (Some MOE_migrate));
  Cluster.fencing_policy :=
    Some (FencingPolicy.mk (Some true)
            (Some (SkipIfConnectivityBroken.mk (Some false) (Some 50)))
            (Some (SkipIfSdActive.mk (Some false))));
  Cluster.display := None;
  Cluster.required_rng_sources := Some [RNG_random];
  Cluster.memory_policy := Some (MemoryPolicy.mk (Some (MemoryOverCommit.mk (Some 100))));
  Cluster.ksm := Some (Ksm.mk (Some true) (Some true));
  Cluster.data_center := Some (DataCenter.mk None);
  Cluster.management_network := None;
  Cluster.cpu := cpu;
  Cluster.version := Some (Version.mk (Some 4) (Some 0));
  Cluster.switch_type := Some ST_legacy
|}.

(** The same with a link to some scheduling policy, as the engine
    sends it. *)
Definition cluster_sample (cpu : option Cpu.t) : Cluster.t :=
  cluster_sample_with
    (Some (SchedulingPolicy.mk (Some "b4ed2332-a7ac-4d5f-9596-99a439cb2812") None)) cpu.

Definition cluster_full : Cluster.t :=
  cluster_sample (Some (Cpu.mk (Some AR_x86_64) (Some "Intel Nehalem Family"))).

Definition cluster_without_cpu : Cluster.t := cluster_sample None.

Definition policy_none : SchedulingPolicy.t :=
  SchedulingPolicy.mk (Some "20d25257-b4bd-4589-92a6-c4c5c5d3fd1a") (Some "none").

(** A cluster whose scheduling policy is the policy "none". *)
Definition cluster_policy_none : Cluster.t :=
  cluster_sample_with (Some policy_none)
    (Some (Cpu.mk (Some AR_x86_64) (Some "Intel Nehalem Family"))).

(** Only [name] and [cpu_arch: x86_64]. *)
Definition params_cpu_arch : Params := {|
  state := present; name := "mycluster";
  ballooning := None; gluster := None; virt := None; threads_as_cores := None;
  ksm_numa := None; ksm := None; ha_reservation := None; trusted_service := None;
  vm_reason := None; host_reason := None; memory_policy := None; rng_sources := None;
  spice_proxy := None; fence_enabled := None; fence_skip_if_sd_active := None;
  fence_skip_if_connectivity_broken := None; fence_connectivity_threshold := None;
  resilience_policy := None; migration_bandwidth := None;
  migration_bandwidth_limit := None; migration_auto_converge := None;
  migration_compressed := None; migration_policy := None; serial_policy := None;
  serial_policy_value := None; scheduling_policy := None; datacenter := None;
  description := None; comment := None; network := None;
  cpu_arch := Some arch_x86_64;
  cpu_type := None; switch_type := None; compatibility_version := None
|}.

(** An engine that knows the scheduling policy "none" and the cluster
    "mycluster", and accepts every write. *)
Definition engine : Remote := {|
  sched_policy_by_name :=
    fun n => match n with
             | Some s => if String.eqb s "none" then Ok (Some policy_none) else Ok None
             | None => Ok None
             end;
  cluster_by_name :=
    fun n => if String.eqb n "mycluster" then Ok (Some cluster_full) else Ok None;
  add_response :=
    fun c => Ok {| Cluster.id := Some "new-id";
                   Cluster.name := Cluster.name c;
                   Cluster.comment := Cluster.comment c;
                   Cluster.description := Cluster.description c;
                   Cluster.ballooning_enabled := Cluster.ballooning_enabled c;
                   Cluster.gluster_service := Cluster.gluster_service c;
                   Cluster.virt_service := Cluster.virt_service c;
                   Cluster.threads_as_cores := Cluster.threads_as_cores c;
                   Cluster.ha_reservation := Cluster.ha_reservation c;
                   Cluster.trusted_service := Cluster.trusted_service c;
                   Cluster.optional_reason := Cluster.optional_reason c;
                   Cluster.maintenance_reason_required := Cluster.maintenance_reason_required c;
                   Cluster.scheduling_policy := Cluster.scheduling_policy c;
                   Cluster.serial_number := Cluster.serial_number c;
                   Cluster.migration := Cluster.migration c;
                   Cluster.error_handling := Cluster.error_handling c;
                   Cluster.fencing_policy := Cluster.fencing_policy c;
                   Cluster.display := Cluster.display c;
                   Cluster.required_rng_sources := Cluster.required_rng_sources c;
                   Cluster.memory_policy := Cluster.memory_policy c;
                   Cluster.ksm := Cluster.ksm c;
                   Cluster.data_center := Cluster.data_center c;
                   Cluster.management_network := Cluster.management_network c;
                   Cluster.cpu := Cluster.cpu c;
                   Cluster.version := Cluster.version c;
                   Cluster.switch_type := Cluster.switch_type c |};
  update_response := fun _ c => Ok c;
  remove_response := fun _ => Ok tt
|}.

(** An engine that differs from [engine] in everything but its
    scheduling policies. *)
Definition engine_other : Remote := {|
  sched_policy_by_name := sched_policy_by_name engine;
  cluster_by_name := fun _ => Ok None;
  add_response := fun _ => Raise (SdkError "Fault");
  update_response := fun _ _ => Raise (SdkError "Fault");
  remove_response := fun _ => Raise (SdkError "Fault")
|}.

(** ** Notions used by the further properties *)

(** The string contains a ['.']. *)
Fixpoint has_dot (s : string) : bool :=
  match s with
  | EmptyString => false
  | String c r => (Ascii.eqb c "."%char || has_dot r)%bool
  end.

(** The decimal numeral of a natural number, as YAML or a user writes
    it. *)
Definition numeral (n : nat) : string :=
  DecimalString.NilEmpty.string_of_uint (Nat.to_uint n).

(** A version written ["M.m"]. *)
Definition version_string (major minor : nat) : string :=
  numeral major ++ "." ++ numeral minor.

(** The [ksm] / [ksm_numa] pairs for which the check agrees with the
    [Ksm] object built from them. *)
Definition ksm_round_trips (k kn : option bool) : bool :=
  match k, kn with
  | Some true, Some true => false
  | Some false, None => false
  | _, _ => true
  end.

(** The scheduling policy the engine finds carries the name asked for
    (or no name was asked for). *)
Definition sched_name_matches (w : Remote) (p : Params) : bool :=
  match sched_policy_by_name w (scheduling_policy p) with
  | Ok (Some sp) =>
      equal String.eqb (scheduling_policy p) (SchedulingPolicy.name sp)
  | _ => false
  end.

(** Parameters that make [build_entity] build every nested object
    [update_check] reads through, with values the check accepts. *)
Definition fully_specified (p : Params) : bool :=
  (negb (is_set (cpu_arch p)) && str_truthy (cpu_type p)
   && (is_set (ksm_numa p) || is_set (ksm p))
   && ksm_round_trips (ksm p) (ksm_numa p)
   && (negb (is_set (spice_proxy p)) || str_truthy (spice_proxy p))
   && truthy (fence_skip_if_sd_active p)
   && (is_set (fence_skip_if_connectivity_broken p)
       || is_set (fence_connectivity_threshold p))
   && negb (is_set (fence_enabled p) && negb (truthy (fence_enabled p)))
   && is_set (resilience_policy p)
   && (is_set (migration_bandwidth p)
       || match migration_bandwidth_limit p with Some z => negb (z =? 0) | None => false end)
   && is_set (migration_policy p)
   && is_set (serial_policy p)
   && is_set (memory_policy p)
   && (negb (is_set (compatibility_version p))
       || (str_truthy (compatibility_version p) && version_parses p))
   && list_truthy (rng_sources p)
   && match rng_sources p with
      | Some l => forallb (fun s => String.eqb s "hwrng" || String.eqb s "random") l
      | None => false
      end)%bool.

(** A task that sets every group. *)
Definition params_full : Params := {|
  state := present; name := "mycluster";
  ballooning := Some true; gluster := Some false; virt := Some true;
  threads_as_cores := Some true;
  ksm_numa := Some true; ksm := None; ha_reservation := Some true;
  trusted_service := Some false;
  vm_reason := Some true; host_reason := Some false;
  memory_policy := Some mp_server; rng_sources := Some ["random"; "hwrng"];
  spice_proxy := Some "http://proxy:3128"; fence_enabled := Some true;
  fence_skip_if_sd_active := Some true;
  fence_skip_if_connectivity_broken := Some false;
  fence_connectivity_threshold := Some 50;
  resilience_policy := Some MOE_migrate; migration_bandwidth := Some MB_custom;
  migration_bandwidth_limit := Some 100; migration_auto_converge := Some IB_inherit;
  migration_compressed := None; migration_policy := Some minimal_downtime;
  serial_policy := Some SNP_custom;
  serial_policy_value := Some "0815"; scheduling_policy := Some "none";
  datacenter := Some "mydatacenter";
  description := Some "mycluster"; comment := None; network := None;
  cpu_arch := None;
  cpu_type := Some "Intel Nehalem Family"; switch_type := Some ST_legacy;
  compatibility_version := Some "4.0"
|}.

(** As [params_full], with the random number sources listed the other
    way round. *)
Definition params_rng_swapped : Params := {|
  state := present; name := "mycluster";
  ballooning := Some true; gluster := Some false; virt := Some true;
  threads_as_cores := Some true;
  ksm_numa := Some true; ksm := None; ha_reservation := Some true;
  trusted_service := Some false;
  vm_reason := Some true; host_reason := Some false;
  memory_policy := Some mp_server; rng_sources := Some ["hwrng"; "random"];
  spice_proxy := Some "http://proxy:3128"; fence_enabled := Some true;
  fence_skip_if_sd_active := Some true;
  fence_skip_if_connectivity_broken := Some false;
  fence_connectivity_threshold := Some 50;
  resilience_policy := Some MOE_migrate; migration_bandwidth := Some MB_custom;
  migration_bandwidth_limit := Some 100; migration_auto_converge := Some IB_inherit;
  migration_compressed := None; migration_policy := Some minimal_downtime;
  serial_policy := Some SNP_custom;
  serial_policy_value := Some "0815"; scheduling_policy := Some "none";
  datacenter := Some "mydatacenter";
  description := Some "mycluster"; comment := None; network := None;
  cpu_arch := None;
  cpu_type := Some "Intel Nehalem Family"; switch_type := Some ST_legacy;
  compatibility_version := Some "4.0"
|}.

(** The task [p] with another [datacenter], [network], [name] and
    [state]. *)
Definition with_untracked (p : Params) (dc net : option string) (nm : string)
  (st : State) : Params := {|
  state := st; name := nm;
  ballooning := ballooning p; gluster := gluster p; virt := virt p;
  threads_as_cores := threads_as_cores p;
  ksm_numa := ksm_numa p; ksm := ksm p; ha_reservation := ha_reservation p;
  trusted_service := trusted_service p;
  vm_reason := vm_reason p; host_reason := host_reason p;
  memory_policy := memory_policy p; rng_sources := rng_sources p;
  spice_proxy := spice_proxy p; fence_enabled := fence_enabled p;
  fence_skip_if_sd_active := fence_skip_if_sd_active p;
  fence_skip_if_connectivity_broken := fence_skip_if_connectivity_broken p;
  fence_connectivity_threshold := fence_connectivity_threshold p;
  resilience_policy := resilience_policy p;
  migration_bandwidth := migration_bandwidth p;
  migration_bandwidth_limit := migration_bandwidth_limit p;
  migration_auto_converge := migration_auto_converge p;
  migration_compressed := migration_compressed p;
  migration_policy := migration_policy p; serial_policy := serial_policy p;
  serial_policy_value := serial_policy_value p;
  scheduling_policy := scheduling_policy p; datacenter := dc;
  description := description p; comment := comment p; network := net;
  cpu_arch := cpu_arch p;
  cpu_type := cpu_type p; switch_type := switch_type p;
  compatibility_version := compatibility_version p
|}.

(** The order of strings that [sorted] uses. *)
Definition leb_true (a b : string) : Prop := String.leb a b = true.

(** The comparisons of [update_check] that read no nested object:
    comment, description and switch type. *)
Definition flat_fields_equal (p : Params) (e : Cluster.t) : bool :=
  (equal String.eqb (comment p) (Cluster.comment e)
   && equal String.eqb (description p) (Cluster.description e)
   && equal_str SwitchType_image (switch_type p) (Cluster.switch_type e))%bool.

(** Parameters with only [name] and [fence_enabled: false]. *)
Definition params_fence_disabled : Params := {|
  state := present; name := "mycluster";
  ballooning := None; gluster := None; virt := None; threads_as_cores := None;
  ksm_numa := None; ksm := None; ha_reservation := None; trusted_service := None;
  vm_reason := None; host_reason := None; memory_policy := None; rng_sources := None;
  spice_proxy := None; fence_enabled := Some false; fence_skip_if_sd_active := None;
  fence_skip_if_connectivity_broken := None; fence_connectivity_threshold := None;
  resilience_policy := None; migration_bandwidth := None;
  migration_bandwidth_limit := None; migration_auto_converge := None;
  migration_compressed := None; migration_policy := None; serial_policy := None;
  serial_policy_value := None; scheduling_policy := None; datacenter := None;
  description := None; comment := None; network := None; cpu_arch := None;
  cpu_type := None; switch_type := None; compatibility_version := None
|}.

(** Parameters with only [name] and [migration_bandwidth_limit: 0]. *)
Definition params_zero_limit : Params := {|
  state := present; name := "mycluster";
  ballooning := None; gluster := None; virt := None; threads_as_cores := None;
  ksm_numa := None; ksm := None; ha_reservation := None; trusted_service := None;
  vm_reason := None; host_reason := None; memory_policy := None; rng_sources := None;
  spice_proxy := None; fence_enabled := None; fence_skip_if_sd_active := None;
  fence_skip_if_connectivity_broken := None; fence_connectivity_threshold := None;
  resilience_policy := None; migration_bandwidth := None;
  migration_bandwidth_limit := Some 0; migration_auto_converge := None;
  migration_compressed := None; migration_policy := None; serial_policy := None;
  serial_policy_value := None; scheduling_policy := None; datacenter := None;
  description := None; comment := None; network := None; cpu_arch := None;
  cpu_type := None; switch_type := None; compatibility_version := None
|}.

(** Parameters with only [name] and [comment: temporary]. *)
Definition params_comment : Params := {|
  state := present; name := "mycluster";
  ballooning := None; gluster := None; virt := None; threads_as_cores := None;
  ksm_numa := None; ksm := None; ha_reservation := None; trusted_service := None;
  vm_reason := None; host_reason := None; memory_policy := None; rng_sources := None;
  spice_proxy := None; fence_enabled := None; fence_skip_if_sd_active := None;
  fence_skip_if_connectivity_broken := None; fence_connectivity_threshold := None;
  resilience_policy := None; migration_bandwidth := None;
  migration_bandwidth_limit := None; migration_auto_converge := None;
  migration_compressed := None; migration_policy := None; serial_policy := None;
  serial_policy_value := None; scheduling_policy := None; datacenter := None;
  description := None; comment := Some "temporary"; network := None; cpu_arch := None;
  cpu_type := None; switch_type := None; compatibility_version := None
|}.

(** Parameters that give [serial_policy_value] without [serial_policy]. *)
Definition params_serial_value : Params := {|
  state := present; name := "mycluster";
  ballooning := None; gluster := None; virt := None; threads_as_cores := None;
  ksm_numa := None; ksm := None; ha_reservation := None; trusted_service := None;
  vm_reason := None; host_reason := None; memory_policy := None; rng_sources := None;
  spice_proxy := None; fence_enabled := None; fence_skip_if_sd_active := None;
  fence_skip_if_connectivity_broken := None; fence_connectivity_threshold := None;
  resilience_policy := None; migration_bandwidth := None;
  migration_bandwidth_limit := None; migration_auto_converge := None;
  migration_compressed := None; migration_policy := None; serial_policy := None;
  serial_policy_value := Some "0815"; scheduling_policy := None; datacenter := None;
  description := None; comment := None; network := None; cpu_arch := None;
  cpu_type := None; switch_type := None; compatibility_version := None
|}.

(** Parameters with only [name] and the given [compatibility_version]. *)
Definition params_version (v : option string) : Params := {|
  state := present; name := "mycluster";
  ballooning := None; gluster := None; virt := None; threads_as_cores := None;
  ksm_numa := None; ksm := None; ha_reservation := None; trusted_service := None;
  vm_reason := None; host_reason := None; memory_policy := None; rng_sources := None;
  spice_proxy := None; fence_enabled := None; fence_skip_if_sd_active := None;
  fence_skip_if_connectivity_broken := None; fence_connectivity_threshold := None;
  resilience_policy := None; migration_bandwidth := None;
  migration_bandwidth_limit := None; migration_auto_converge := None;
  migration_compressed := None; migration_policy := None; serial_policy := None;
  serial_policy_value := None; scheduling_policy := None; datacenter := None;
  description := None; comment := None; network := None; cpu_arch := None;
  cpu_type := None; switch_type := None; compatibility_version := v
|}.

(** ** Basic facts about the monad *)

Lemma outcome_bind_inv {A B} (m : Py A) (k : A -> Py B) w b :
  outcome (bind m k w) = Ok b ->
  exists a, outcome (m w) = Ok a /\ outcome (k a w) = Ok b.
Proof.
  unfold outcome, bind. destruct (m w) as [l [a|e]]; simpl.
  - destruct (k a w) as [l' r] eqn:E. simpl. intros ->.
    exists a. rewrite E. auto.
  - discriminate.
Qed.

Lemma calls_bind {A B} (m : Py A) (k : A -> Py B) w :
  calls (bind m k w) =
  match outcome (m w) with
  | Ok a => (calls (m w) ++ calls (k a w))%list
  | Raise _ => calls (m w)
  end.
Proof.
  unfold calls, outcome, bind. destruct (m w) as [l [a|e]]; simpl; auto.
  destruct (k a w); reflexivity.
Qed.

Lemma and_chain_cons (c : Py bool) (rest : list (Py bool)) w :
  and_chain (c :: rest) w = and_then c (and_chain rest) w.
Proof.
  destruct rest as [|c' rest]; [|reflexivity].
  simpl. unfold and_then, bind, ret.
  destruct (c w) as [l [[|]|e]]; simpl; now rewrite ?app_nil_r.
Qed.

(** ** The scheduling-policy lookup *)

Lemma get_sched_policy_unset p w :
  serial_policy p = None -> _get_sched_policy p w = ([], Ok None).
Proof.
  intros H. unfold _get_sched_policy. now rewrite H.
Qed.

Lemma get_sched_policy_set p w s :
  serial_policy p = Some s ->
  _get_sched_policy p w =
  ([ListSchedulingPolicies (scheduling_policy p)],
   match sched_policy_by_name w (scheduling_policy p) with
   | Ok (Some sp) => Ok (Some sp)
   | Ok None => Raise (Exception (not_found_msg p))
   | Raise e => Raise e
   end).
Proof.
  intros H. unfold _get_sched_policy. rewrite H. simpl.
  unfold bind, search_sched_policy_by_name, request, raise, ret.
  destruct (sched_policy_by_name w (scheduling_policy p)) as [[sp|]|e]; reflexivity.
Qed.

Lemma build_entity_unset p w :
  serial_policy p = None -> build_entity p w = ([], build_cluster p None).
Proof.
  intros H. unfold build_entity, bind. rewrite (get_sched_policy_unset p w H).
  reflexivity.
Qed.

Lemma RngSource_of_image s r : RngSource_of s = Ok r -> RngSource_image r = s.
Proof.
  unfold RngSource_of.
  destruct (String.eqb s "hwrng") eqn:E1.
  - intros [= <-]. symmetry. now apply String.eqb_eq.
  - destruct (String.eqb s "random") eqn:E2; [|discriminate].
    intros [= <-]. symmetry. now apply String.eqb_eq.
Qed.

Lemma map_py_RngSource_image l rs :
  map_py RngSource_of l = Ok rs -> map RngSource_image rs = l.
Proof.
  revert rs. induction l as [|s l IH]; simpl; intros rs.
  - now intros [= <-].
  - destruct (RngSource_of s) as [r|e] eqn:E; simpl; [|discriminate].
    destruct (map_py RngSource_of l) as [rs'|e]; simpl; [|discriminate].
    intros [= <-]. simpl. f_equal; [now apply RngSource_of_image | now apply IH].
Qed.

Lemma map_py_RngSource_total l :
  forallb (fun s => String.eqb s "hwrng" || String.eqb s "random")%bool l = true ->
  exists rs, map_py RngSource_of l = Ok rs.
Proof.
  induction l as [|s l IH]; simpl; intros H.
  - now exists [].
  - apply andb_true_iff in H as [Hs Hl]. destruct (IH Hl) as [rs ->].
    unfold RngSource_of.
    destruct (String.eqb s "hwrng"); simpl; [eauto|].
    simpl in Hs. rewrite Hs. simpl. eauto.
Qed.

(** [build_cluster] returns on well-formed parameters. *)
Lemma build_cluster_total p sp :
  well_formed p = true -> exists c, build_cluster p sp = Ok c.
Proof.
  unfold well_formed, build_cluster. intros H.
  apply andb_true_iff in H as [H Hv]. apply andb_true_iff in H as [H Hcpu].
  apply andb_true_iff in H as [Hs Hr].
  assert (exists sn, build_serial_number p = Ok sn) as [sn ->].
  { unfold build_serial_number.
    destruct (serial_policy p); simpl; [eauto|].
    simpl in Hs. destruct (serial_policy_value p); simpl in *; [discriminate|eauto]. }
  assert (exists rs, build_rng_sources p = Ok rs) as [rs ->].
  { unfold build_rng_sources. destruct (rng_sources p) as [[|x l]|]; eauto.
    destruct (map_py_RngSource_total _ Hr) as [r ->]. simpl. eauto. }
  assert (exists cp, build_cpu p = Ok cp) as [cp ->].
  { unfold build_cpu. destruct (cpu_arch p); [discriminate|].
    destruct (is_set None || str_truthy (cpu_type p))%bool; eauto. }
  assert (exists v, build_version p = Ok v) as [v ->].
  { unfold build_version. destruct (str_truthy (compatibility_version p)); [|eauto].
    simpl in Hv. unfold version_parses in Hv. apply andb_true_iff in Hv as [H1 H2].
    destruct (__get_major _); [|discriminate].
    destruct (__get_minor _); [|discriminate]. simpl. eauto. }
  simpl. eauto.
Qed.

Lemma build_cluster_sched_policy p c :
  build_cluster p None = Ok c -> Cluster.scheduling_policy c = None.
Proof.
  unfold build_cluster.
  destruct (build_serial_number p); simpl; [|discriminate].
  destruct (build_rng_sources p); simpl; [|discriminate].
  destruct (build_cpu p); simpl; [|discriminate].
  destruct (build_version p); simpl; [|discriminate].
  now intros [= <-].
Qed.

(** C9: the scheduling-policy lookup is gated on [serial_policy].
    Without [serial_policy], [_get_sched_policy] returns [None] and
    sends nothing, and [build_entity] (which then sends nothing either,
    and returns on well-formed parameters) leaves the cluster's
    [scheduling_policy] at [None], whatever the [scheduling_policy]
    parameter says.  With [serial_policy], exactly one lookup by the
    name in [scheduling_policy] is sent; the policy found is returned,
    and when none is found the exception "Scheduling policy '...' was
    not found" is raised. *)
Theorem sched_policy_lookup_gated_on_serial_policy (p : Params) (w : Remote) :
  match serial_policy p with
  | None =>
      _get_sched_policy p w = ([], Ok None) /\
      calls (build_entity p w) = [] /\
      (forall c, outcome (build_entity p w) = Ok c -> Cluster.scheduling_policy c = None) /\
      (well_formed p = true -> exists c, outcome (build_entity p w) = Ok c)
  | Some _ =>
      calls (_get_sched_policy p w) = [ListSchedulingPolicies (scheduling_policy p)] /\
      outcome (_get_sched_policy p w) =
        match sched_policy_by_name w (scheduling_policy p) with
        | Ok (Some sp) => Ok (Some sp)
        | Ok None =>
            Raise (Exception ("Scheduling policy '"
                              ++ py_str (fun s => s) (scheduling_policy p)
                              ++ "' was not found"))
        | Raise e => Raise e
        end
  end.
Proof.
  destruct (serial_policy p) as [s|] eqn:E.
  - rewrite (get_sched_policy_set p w s E). split; reflexivity.
  - rewrite (build_entity_unset p w E), (get_sched_policy_unset p w E).
    repeat split.
    + intros c. apply build_cluster_sched_policy.
    + intros H. apply build_cluster_total, H.
Qed.

(** The guard at work: [scheduling_policy] is given, [serial_policy] is
    not, and the built cluster has no scheduling policy. *)
Lemma sched_policy_lookup_gated_witness :
  is_set (scheduling_policy params_sched_only) = true /\
  calls (build_entity params_sched_only engine) = [] /\
  exists c, outcome (build_entity params_sched_only engine) = Ok c /\
            Cluster.scheduling_policy c = None.
Proof.
  pose proof (sched_policy_lookup_gated_on_serial_policy params_sched_only engine) as H.
  simpl in H. destruct H as (_ & Hc & Hn & Ht).
  split; [reflexivity|]. split; [exact Hc|].
  destruct (Ht eq_refl) as [c Hcq]. exists c. split; [exact Hcq | exact (Hn c Hcq)].
Defined.

(** ** The parameter groups of [build_entity] *)

Lemma get_sched_policy_returns p w :
  sched_lookup_ok w p = true ->
  exists sp, outcome (_get_sched_policy p w) = Ok sp.
Proof.
  unfold sched_lookup_ok. destruct (serial_policy p) as [s|] eqn:E.
  - rewrite (get_sched_policy_set p w s E). simpl.
    destruct (sched_policy_by_name w (scheduling_policy p)) as [[sp|]|e];
      try discriminate. intros _. eauto.
  - rewrite (get_sched_policy_unset p w E). intros _. now exists None.
Qed.

Lemma outcome_build_entity p w :
  outcome (build_entity p w) =
  match outcome (_get_sched_policy p w) with
  | Ok sp => build_cluster p sp
  | Raise e => Raise e
  end.
Proof.
  unfold build_entity, bind, lift, outcome.
  destruct (_get_sched_policy p w) as [l [sp|e]]; reflexivity.
Qed.

Ltac break_match :=
  match goal with
  | H : context [match ?x with _ => _ end] |- _ => destruct x eqn:?
  | |- context [match ?x with _ => _ end] => destruct x eqn:?
  end.

Ltac crush_options :=
  repeat (simpl in *; subst; try discriminate;
          match goal with
          | H : Some _ = Some _ |- _ => injection H as H
          | H : Ok _ = Ok _ |- _ => injection H as H
          | |- _ /\ _ => split
          | |- forall _, _ => intro
          | _ => break_match
          end);
  simpl in *; subst; try discriminate; try reflexivity; try congruence.

Lemma build_serial_number_spec p sn :
  build_serial_number p = Ok sn ->
  is_set sn = (is_set (serial_policy p) || is_set (serial_policy_value p))%bool /\
  forall s, sn = Some s -> s = SerialNumber.mk (serial_policy p) (serial_policy_value p).
Proof.
  unfold build_serial_number, SerialNumberPolicy_of, rbind, is_set.
  intros H. crush_options.
Qed.

Lemma build_rng_sources_spec p rs :
  build_rng_sources p = Ok rs ->
  is_set rs = list_truthy (rng_sources p) /\
  forall l, rs = Some l -> rng_sources p = Some (map RngSource_image l).
Proof.
  unfold build_rng_sources, list_truthy.
  destruct (rng_sources p) as [[|x l]|]; try (intros [= <-]; split; [reflexivity|discriminate]).
  destruct (map_py RngSource_of (x :: l)) as [r|e] eqn:E; simpl; [|discriminate].
  intros [= <-]. split; [reflexivity|].
  intros l' [= <-]. now rewrite (map_py_RngSource_image _ _ E).
Qed.

Lemma build_version_spec p v :
  build_version p = Ok v ->
  is_set v = str_truthy (compatibility_version p) /\
  forall x, v = Some x ->
    __get_major (fv_of_param (compatibility_version p)) = Ok (Version.major x) /\
    __get_minor (fv_of_param (compatibility_version p)) = Ok (Version.minor x).
Proof.
  unfold build_version.
  destruct (str_truthy (compatibility_version p));
    [|intros [= <-]; split; [reflexivity|discriminate]].
  destruct (__get_major _) as [ma|e]; simpl; [|discriminate].
  destruct (__get_minor _) as [mi|e]; simpl; [|discriminate].
  intros [= <-]. split; [reflexivity|]. intros x [= <-]. auto.
Qed.

Lemma build_cpu_spec p cp :
  build_cpu p = Ok cp ->
  is_set cp = (is_set (cpu_arch p) || str_truthy (cpu_type p))%bool /\
  forall x, cp = Some x -> x = Cpu.mk None (cpu_type p).
Proof.
  unfold build_cpu.
  destruct (cpu_arch p); simpl; [discriminate|].
  destruct (str_truthy (cpu_type p)); intros [= <-]; split; try reflexivity;
    [now intros x [= <-] | discriminate].
Qed.

Lemma build_cluster_groups p sp c g :
  build_cluster p sp = Ok c ->
  g <> G_scheduling_policy ->
  group_present g c = group_nonempty g p /\ group_content g p c.
Proof.
  unfold build_cluster. intros H Hg.
  destruct (build_serial_number p) as [sn|] eqn:Esn; simpl in H; [|discriminate].
  destruct (build_rng_sources p) as [rs|] eqn:Ers; simpl in H; [|discriminate].
  destruct (build_cpu p) as [cp|] eqn:Ecpu; simpl in H; [|discriminate].
  destruct (build_version p) as [v|] eqn:Ev; simpl in H; [|discriminate].
  injection H as <-.
  apply build_serial_number_spec in Esn as [Esn1 Esn2].
  apply build_rng_sources_spec in Ers as [Ers1 Ers2].
  apply build_version_spec in Ev as [Ev1 Ev2].
  apply build_cpu_spec in Ecpu as [Ecpu1 Ecpu2].
  destruct g; try congruence; simpl; (split; [try assumption|try assumption]);
    clear Esn1 Esn2 Ers1 Ers2 Ev1 Ev2 Ecpu1 Ecpu2;
    unfold build_migration, build_fencing_policy, build_ksm, is_set, str_truthy;
    crush_options.
Qed.

(** [cpu_arch] is handed to [otypes.Cpu] as the string it is, so with
    [cpu_arch] given [build_entity] never returns a cluster. *)
Lemma build_entity_cpu_arch_raises p w :
  is_set (cpu_arch p) = true -> forall c, outcome (build_entity p w) <> Ok c.
Proof.
  intros Ha c. rewrite outcome_build_entity.
  destruct (outcome (_get_sched_policy p w)) as [sp|]; [|discriminate].
  unfold build_cluster.
  destruct (build_serial_number p); simpl; [|discriminate].
  destruct (build_rng_sources p); simpl; [|discriminate].
  unfold build_cpu. rewrite Ha. destruct (cpu_arch p); [|discriminate].
  simpl. discriminate.
Qed.

(** C3, amended: on parameters whose conversions succeed and whose
    scheduling-policy lookup (if any) finds a policy, [build_entity]
    returns a cluster in which, for every group but scheduling_policy,
    the sub-object is there exactly when a parameter of the group is
    given with a value the source accepts (not [None]; for the groups
    tested by truth value, not the empty string or list either), and a
    sub-object that is there carries the group's parameters, its own
    nested objects (bandwidth, migration policy, the two skip_if
    objects) being there exactly under their guards. *)
Theorem build_entity_groups (p : Params) (w : Remote) :
  well_formed p = true ->
  sched_lookup_ok w p = true ->
  exists c,
    outcome (build_entity p w) = Ok c /\
    forall g, g <> G_scheduling_policy ->
      group_present g c = group_nonempty g p /\
      (group_set g p = false -> group_present g c = false) /\
      group_content g p c.
Proof.
  intros Hwf Hl.
  destruct (get_sched_policy_returns p w Hl) as [sp Hsp].
  destruct (build_cluster_total p sp Hwf) as [c Hc].
  exists c. split.
  - rewrite outcome_build_entity, Hsp. exact Hc.
  - intros g Hg. destruct (build_cluster_groups p sp c g Hc Hg) as [H1 H2].
    repeat split; auto.
    intros Hset. rewrite H1.
    destruct g; simpl in *; try assumption; try congruence;
      unfold is_set, str_truthy, list_truthy in *; crush_options.
Qed.

Lemma build_entity_groups_witness :
  exists c,
    outcome (build_entity params_ksm engine) = Ok c /\
    group_present G_ksm c = true /\ group_present G_display c = false.
Proof.
  destruct (build_entity_groups params_ksm engine eq_refl eq_refl) as [c [Hc Hg]].
  exists c. split; [exact Hc|]. split.
  - destruct (Hg G_ksm) as [H _]; [discriminate|]. rewrite H. reflexivity.
  - destruct (Hg G_display) as [H _]; [discriminate|]. rewrite H. reflexivity.
Defined.

(** C3 as stated fails: [spice_proxy] is given (as the empty string),
    yet the built cluster has no display sub-object. *)
Lemma build_entity_empty_proxy_omits_display :
  group_set G_display params_empty_proxy = true /\
  (exists c, outcome (build_entity params_empty_proxy engine) = Ok c /\
             group_present G_display c = false) /\
  ~ (forall p w c g,
       outcome (build_entity p w) = Ok c -> group_present g c = group_set g p).
Proof.
  split; [reflexivity|]. split; [eexists; split; reflexivity|].
  intros H.
  specialize (H params_empty_proxy engine _ G_display eq_refl). discriminate H.
Qed.

(** ** The idempotency check *)

Lemma and_chain_sound w ops cs :
  Forall2 (refines w) ops cs ->
  forall b, outcome (and_chain ops w) = Ok b -> b = forallb agrees cs.
Proof.
  induction 1 as [|op c ops cs Hop _ IH]; intros b.
  - simpl. now intros [= <-].
  - rewrite and_chain_cons. unfold and_then. intros H.
    apply outcome_bind_inv in H as (x & Hx & Hk).
    apply Hop in Hx. simpl. rewrite <- Hx.
    destruct x; simpl.
    + now apply IH.
    + now injection Hk as <-.
Qed.

Lemma equal_compare_with {A} (eqb : A -> A -> bool) d c :
  equal eqb d c = agrees (compare_with eqb d c).
Proof. reflexivity. Qed.

Lemma equal_str_SwitchType d c :
  equal_str SwitchType_image d c = agrees (compare_with SwitchType_beq d c).
Proof. destruct d as [[]|], c as [[]|]; reflexivity. Qed.

Lemma equal_str_Architecture d c :
  equal String.eqb (option_map CpuArch_image d) (Some (py_str Architecture_image c))
  = agrees (compare_with Architecture_beq (option_map Architecture_named d) c).
Proof. destruct d as [[]|], c as [[]|]; reflexivity. Qed.

Lemma equal_str_MigrateOnError d c :
  equal_str MigrateOnError_image d c = agrees (compare_with MigrateOnError_beq d c).
Proof. destruct d as [[]|], c as [[]|]; reflexivity. Qed.

Lemma equal_str_MigrationBandwidth d c :
  equal_str MigrationBandwidthAssignmentMethod_image d c =
  agrees (compare_with MigrationBandwidthAssignmentMethod_beq d c).
Proof. destruct d as [[]|], c as [[]|]; reflexivity. Qed.

Lemma equal_str_InheritableBoolean d c :
  equal_str InheritableBoolean_image d c =
  agrees (compare_with InheritableBoolean_beq d c).
Proof. destruct d as [[]|], c as [[]|]; reflexivity. Qed.

Lemma equal_str_SerialNumberPolicy d c :
  equal_str SerialNumberPolicy_image d c =
  agrees (compare_with SerialNumberPolicy_beq d c).
Proof. destruct d as [[]|], c as [[]|]; reflexivity. Qed.

Lemma get_minor_entity v : __get_minor (fv_of_entity v) = Ok (nav v Version.minor).
Proof. now destruct v. Qed.

Lemma get_major_entity v : __get_major (fv_of_entity v) = Ok (nav v Version.major).
Proof. now destruct v. Qed.

Lemma refines_ret w b c : b = agrees c -> refines w (ret b) c.
Proof. intros -> b'. simpl. now intros [= <-]. Qed.

(** Reading [o.a] raises on [None] and otherwise agrees with [nav]. *)
Lemma refines_getattr {A B} w (o : option A) attr (f : A -> option B)
  (k : option B -> Py bool) c :
  (forall a, o = Some a -> refines w (k (f a)) c) ->
  refines w (x <- getattr o attr f ;; k x) c.
Proof.
  intros H b Hb. apply outcome_bind_inv in Hb as (x & Hx & Hk).
  destruct o as [a|]; simpl in Hx; [|discriminate].
  injection Hx as <-. now apply (H a eq_refl).
Qed.

Lemma refines_getattr2 {A B C} w (o : option A) a1 (f1 : A -> option B)
  a2 (f2 : B -> option C) (k : option C -> Py bool) c :
  (forall a b, o = Some a -> f1 a = Some b -> refines w (k (f2 b)) c) ->
  refines w (x <- getattr2 o a1 f1 a2 f2 ;; k x) c.
Proof.
  intros H b Hb. apply outcome_bind_inv in Hb as (x & Hx & Hk).
  unfold getattr2 in Hx. apply outcome_bind_inv in Hx as (y & Hy & Hx).
  destruct o as [a|]; simpl in Hy; [|discriminate]. injection Hy as <-.
  destruct (f1 a) as [b'|] eqn:E; simpl in Hx; [|discriminate]. injection Hx as <-.
  now apply (H a b' eq_refl E).
Qed.

Lemma refines_lift {A} w (r : result A) (k : A -> Py bool) c :
  (forall a, r = Ok a -> refines w (k a) c) ->
  refines w (x <- lift r ;; k x) c.
Proof.
  intros H b Hb. apply outcome_bind_inv in Hb as (x & Hx & Hk).
  unfold lift, outcome in Hx. simpl in Hx. now apply (H x Hx).
Qed.

Lemma refines_sched_policy w p :
  refines w (sched_policy_operand p)
    (compare_with String.eqb (scheduling_policy p)
       (nav (looked_up_policy w p) SchedulingPolicy.name)).
Proof.
  intros b Hb. unfold sched_policy_operand in Hb.
  apply outcome_bind_inv in Hb as (sp & Hsp & Hk).
  apply outcome_bind_inv in Hk as (n & Hn & Hr).
  destruct sp as [sp|]; simpl in Hn; [|discriminate]. injection Hn as <-.
  simpl in Hr. injection Hr as <-.
  unfold looked_up_policy. destruct (serial_policy p) as [s|] eqn:E.
  - rewrite (get_sched_policy_set p w s E) in Hsp. simpl in Hsp.
    destruct (sched_policy_by_name w (scheduling_policy p)) as [[sp'|]|e];
      try discriminate.
    now injection Hsp as ->.
  - rewrite (get_sched_policy_unset p w E) in Hsp. discriminate.
Qed.

Lemma refines_rng_sources w p e :
  refines w
    (srcs <- match Cluster.required_rng_sources e with
             | Some l => ret (map RngSource_image l)
             | None => raise TypeError_not_iterable
             end ;;
     ret (equal (list_eqb String.eqb)
            (match rng_sources p with
             | Some (x :: l) => Some (sorted (x :: l))
             | _ => None
             end)
            (Some (sorted srcs))))
    (compare_with (list_eqb String.eqb)
       (if list_truthy (rng_sources p) then option_map sorted (rng_sources p) else None)
       (current_rng_sources e)).
Proof.
  intros b Hb. apply outcome_bind_inv in Hb as (srcs & Hs & Hr).
  unfold current_rng_sources.
  destruct (Cluster.required_rng_sources e) as [l|]; [|discriminate].
  injection Hs as <-. injection Hr as <-.
  destruct (rng_sources p) as [[|x l']|]; reflexivity.
Qed.

Lemma refines_ksm w (m en d : option bool) :
  refines w
    (x <- (if truthy m then ret en else ret None) ;;
     ret (equal Bool.eqb d (py_and m x)))
    (compare_with Bool.eqb d (py_and m en)).
Proof.
  intros b Hb. unfold py_and in *.
  destruct (truthy m); simpl in Hb; now injection Hb as <-.
Qed.

Ltac refine_operand :=
  first
    [ apply refines_sched_policy
    | apply refines_ret
    | apply refines_getattr; intros ? ?
    | apply refines_getattr2; intros ? ? ? ?
    | apply refines_lift; intros ? ? ];
  repeat first
    [ apply refines_ret
    | apply refines_getattr; intros ? ?
    | apply refines_lift; intros ? ? ].

Lemma update_check_operands_refine w p e :
  Forall2 (refines w) (update_check_operands p e) (operand_comparisons w p e).
Proof.
  unfold update_check_operands, operand_comparisons, comparisons_before_policy,
    comparisons_after_policy, guarded_comparisons.
  cbn [app].
  rewrite get_minor_entity, get_major_entity.
  repeat (apply Forall2_cons; [refine_operand|]).
  all: try (apply Forall2_cons; [apply refines_rng_sources | apply Forall2_nil]).
  all: try match goal with
           | H : Cluster.ksm _ = Some _ |- refines _ _ _ =>
               rewrite H; cbn [getattr nav]; apply refines_ksm
           end.
  all: rewrite ?equal_str_SwitchType, ?equal_str_Architecture,
         ?equal_str_MigrateOnError, ?equal_str_MigrationBandwidth,
         ?equal_str_InheritableBoolean, ?equal_str_SerialNumberPolicy,
         ?equal_compare_with.
  all: repeat (match goal with
               | H : _ = Some _ |- _ => rewrite H
               | H : _ = Ok _ |- _ => rewrite H
               end; simpl); simpl; reflexivity.
Qed.

Lemma outcome_bind {A B} (m : Py A) (k : A -> Py B) w :
  outcome (bind m k w) =
  match outcome (m w) with
  | Ok a => outcome (k a w)
  | Raise e => Raise e
  end.
Proof.
  unfold outcome, bind. destruct (m w) as [l [a|e]]; simpl; auto.
  now destruct (k a w).
Qed.

Lemma and_chain_returns w ops :
  Forall (returns w) ops -> returns w (and_chain ops).
Proof.
  induction 1 as [|op ops [x Hx] _ IH].
  - now exists true.
  - unfold returns. rewrite and_chain_cons. unfold and_then.
    rewrite outcome_bind, Hx. destruct x; [exact IH | now exists false].
Qed.

Lemma returns_ret w b : returns w (ret b).
Proof. now exists b. Qed.

Lemma returns_getattr {A B} w (o : option A) attr (f : A -> B) (k : B -> Py bool) a :
  o = Some a -> returns w (k (f a)) -> returns w (x <- getattr o attr f ;; k x).
Proof.
  intros -> [b Hb]. exists b. now rewrite outcome_bind.
Qed.

Lemma returns_getattr2 {A B C} w (o : option A) a1 (f1 : A -> option B)
  a2 (f2 : B -> C) (k : C -> Py bool) a b :
  o = Some a -> f1 a = Some b -> returns w (k (f2 b)) ->
  returns w (x <- getattr2 o a1 f1 a2 f2 ;; k x).
Proof.
  intros -> H [r Hr]. exists r.
  rewrite outcome_bind. unfold getattr2. rewrite outcome_bind. simpl.
  rewrite H. exact Hr.
Qed.

Lemma returns_lift {A} w (r : result A) (k : A -> Py bool) a :
  r = Ok a -> returns w (k a) -> returns w (x <- lift r ;; k x).
Proof.
  intros -> [b Hb]. exists b. now rewrite outcome_bind.
Qed.

Lemma is_set_Some {A} (o : option A) : is_set o = true -> exists a, o = Some a.
Proof. destruct o; [eauto | discriminate]. Qed.

Lemma is_ok_Ok {A} (r : result A) : is_ok r = true -> exists a, r = Ok a.
Proof. destruct r; [eauto | discriminate]. Qed.

Lemma nav_Some {A B} (o : option A) (f : A -> option B) b :
  nav o f = Some b -> exists a, o = Some a /\ f a = Some b.
Proof. destruct o; [eauto | discriminate]. Qed.

Lemma update_check_operands_return w p e :
  populated e = true ->
  is_set (serial_policy p) = true ->
  sched_lookup_ok w p = true ->
  version_parses p = true ->
  Forall (returns w) (update_check_operands p e).
Proof.
  intros Hpop Hser Hlk Hver.
  unfold populated in Hpop. repeat rewrite andb_true_iff in Hpop.
  destruct Hpop as [[[[[[[[[Hcpu Hksm] Hsd] Hcb] Heh] Hbw] Hpol] Hsn] Hmem] Hrng].
  apply is_set_Some in Hcpu as [cpu Hcpu], Hksm as [k Hksm], Hsd as [sd Hsd],
    Hcb as [cb Hcb], Heh as [eh Heh], Hbw as [bw Hbw], Hpol as [pol Hpol],
    Hsn as [sn Hsn], Hmem as [oc Hmem], Hrng as [rng Hrng], Hser as [ser Hser].
  apply nav_Some in Hsd as (fp & Hfp & Hsd), Hcb as (fp' & Hfp' & Hcb),
    Hbw as (mig & Hmig & Hbw), Hpol as (mig' & Hmig' & Hpol),
    Hmem as (mem & Hmp & Hmem).
  rewrite Hfp in Hfp'. injection Hfp' as <-.
  rewrite Hmig in Hmig'. injection Hmig' as <-.
  apply andb_true_iff in Hver as [Hma Hmi].
  apply is_ok_Ok in Hma as [ma Hma], Hmi as [mi Hmi].
  assert (exists sp, outcome (_get_sched_policy p w) = Ok (Some sp)) as [sp Hsp].
  { unfold sched_lookup_ok in Hlk. rewrite Hser in Hlk.
    rewrite (get_sched_policy_set p w _ Hser). simpl.
    destruct (sched_policy_by_name w (scheduling_policy p)) as [[sp|]|];
      try discriminate. eauto. }
  unfold update_check_operands, sched_policy_operand.
  rewrite get_minor_entity, get_major_entity, Hksm, Hrng.
  repeat (apply Forall_cons;
          [ first [ apply returns_ret
                  | eapply returns_getattr2; [eassumption|eassumption|]
                  | eapply returns_getattr; [eassumption|]
                  | eapply returns_lift; [eassumption|]
                  | idtac ] | ]).
  all: try apply Forall_nil.
  all: try apply returns_ret.
  all: unfold returns; rewrite ?outcome_bind, ?Hsp; cbn [getattr].
  all: try (eexists; reflexivity).
  all: simpl; destruct (truthy (Ksm.merge_across_nodes k)); eexists; reflexivity.
Qed.

Lemma forallb_false_inv {A} (f : A -> bool) l :
  forallb f l = false -> exists x, In x l /\ f x = false.
Proof.
  induction l as [|a l IH]; simpl; [discriminate|].
  destruct (f a) eqn:E; simpl.
  - intros H. destruct (IH H) as (x & Hx & Hf). eauto.
  - intros _. eauto.
Qed.

Lemma compare_with_disagrees {A} (eqb : A -> A -> bool) d c :
  agrees (compare_with eqb d c) = false -> specified (compare_with eqb d c) = true.
Proof. destruct d; simpl; [reflexivity | discriminate]. Qed.

(** A comparison can only fail for a parameter that was given. *)
Lemma tracked_comparisons_specified p e :
  Forall (fun c => agrees c = false -> specified c = true) (tracked_comparisons p e).
Proof.
  unfold tracked_comparisons, comparisons_before_policy, comparisons_after_policy,
    guarded_comparisons.
  repeat (apply Forall_app; split);
    repeat (apply Forall_cons; [apply compare_with_disagrees|]); apply Forall_nil.
Qed.

(** C1, amended: whenever [update_check] returns [True], every tracked
    parameter other than [scheduling_policy] is [None] or equal to the
    entity's current value, where [migration_bandwidth_limit] counts
    only with [migration_bandwidth = custom] and an empty [rng_sources]
    list counts as not given; whenever it returns [False], a parameter
    the caller gave is the reason: a tracked one that differs from the
    entity's current value, or [scheduling_policy].  It does return
    when the entity has all the nested objects it reads through,
    [serial_policy] is given with a scheduling policy the engine knows,
    and the compatibility version parses. *)
Theorem update_check_decides (w : Remote) (p : Params) (e : Cluster.t) :
  (forall b, outcome (update_check p e w) = Ok b ->
     (b = true -> forallb agrees (tracked_comparisons p e) = true) /\
     (b = false ->
      (exists c, In c (tracked_comparisons p e) /\
                 specified c = true /\ agrees c = false) \/
      is_set (scheduling_policy p) = true)) /\
  (populated e = true ->
   is_set (serial_policy p) = true ->
   sched_lookup_ok w p = true ->
   version_parses p = true ->
   exists b, outcome (update_check p e w) = Ok b).
Proof.
  split.
  - intros b Hb.
    pose proof (and_chain_sound w _ _ (update_check_operands_refine w p e) b Hb) as Hs.
    unfold operand_comparisons in Hs. split.
    + intros ->. symmetry in Hs. unfold tracked_comparisons.
      rewrite !forallb_app in *. rewrite !andb_true_iff in *. tauto.
    + intros ->. symmetry in Hs.
      apply forallb_false_inv in Hs as (c & Hin & Hc).
      pose proof (tracked_comparisons_specified p e) as HF.
      rewrite Forall_forall in HF. unfold tracked_comparisons in *.
      rewrite !in_app_iff in Hin.
      destruct Hin as [Hin | [[<- | []] | [Hin | Hin]]].
      * left. exists c. rewrite !in_app_iff. split; [tauto|].
        split; [apply HF; [rewrite !in_app_iff; tauto | exact Hc] | exact Hc].
      * right. exact (compare_with_disagrees _ _ _ Hc).
      * left. exists c. rewrite !in_app_iff. split; [tauto|].
        split; [apply HF; [rewrite !in_app_iff; tauto | exact Hc] | exact Hc].
      * left. exists c. rewrite !in_app_iff. split; [tauto|].
        split; [apply HF; [rewrite !in_app_iff; tauto | exact Hc] | exact Hc].
  - intros Hpop Hser Hlk Hver. apply and_chain_returns.
    now apply update_check_operands_return.
Qed.

Lemma update_check_decides_witness :
  exists b,
    outcome (update_check params_memory cluster_full engine) = Ok b /\
    b = false /\
    ((exists c, In c (tracked_comparisons params_memory cluster_full) /\
                specified c = true /\ agrees c = false) \/
     is_set (scheduling_policy params_memory) = true).
Proof.
  destruct (update_check_decides engine params_memory cluster_full) as [Hs Ht].
  destruct (Ht eq_refl eq_refl eq_refl eq_refl) as [b Hb].
  exists b. split; [exact Hb|]. destruct (Hs b Hb) as [Ht' Hf].
  assert (Eb : b = false).
  { destruct b; [|reflexivity]. specialize (Ht' eq_refl). discriminate Ht'. }
  split; [exact Eb | exact (Hf Eb)].
Defined.

(** C1 as stated fails: the caller gives [migration_bandwidth_limit: 5]
    (without [migration_bandwidth]), the cluster's current limit is 10,
    every other given parameter, the scheduling policy included, equals
    the cluster's current value, and [update_check] returns [True]. *)
Lemma update_check_ignores_bandwidth_limit :
  migration_bandwidth_limit params_limit = Some 5 /\
  nav (nav (Cluster.migration cluster_policy_none) MigrationOptions.bandwidth)
      MigrationBandwidth.custom_value = Some 10 /\
  nav (Cluster.scheduling_policy cluster_policy_none) SchedulingPolicy.name
    = scheduling_policy params_limit /\
  outcome (update_check params_limit cluster_policy_none engine) = Ok true /\
  forallb agrees (claimed_comparisons params_limit cluster_policy_none) = false /\
  ~ (forall w p e,
       outcome (update_check p e w) = Ok true <->
       forallb agrees (claimed_comparisons p e) = true).
Proof.
  repeat split; try reflexivity.
  intros H. specialize (H engine params_limit cluster_policy_none).
  destruct H as [H _]. specialize (H eq_refl). discriminate H.
Qed.

(** ** Where the check raises *)

Lemma and_chain_true w ops :
  outcome (and_chain ops w) = Ok true ->
  Forall (fun op => outcome (op w) = Ok true) ops.
Proof.
  induction ops as [|op ops IH]; [constructor|].
  rewrite and_chain_cons. unfold and_then. rewrite outcome_bind.
  destruct (outcome (op w)) as [[|]|] eqn:E; try discriminate.
  intros H. constructor; auto.
Qed.

(** X3: without [serial_policy], [update_check] never returns [True]: the
    operand for [scheduling_policy] reads [.name] of [None]. *)
Lemma update_check_never_true_without_serial_policy p e w :
  serial_policy p = None -> outcome (update_check p e w) <> Ok true.
Proof.
  intros Hs H. apply and_chain_true in H. rewrite Forall_forall in H.
  specialize (H (sched_policy_operand p)). unfold sched_policy_operand in H.
  rewrite outcome_bind, (get_sched_policy_unset p w Hs) in H. simpl in H.
  assert (Raise (AttributeError "name") = @Ok bool true) as X; [|discriminate X].
  apply H. unfold update_check_operands.
  do 26 right. left. reflexivity.
Qed.

(** C7 at a failing input: only [name] is given and the cluster exists
    with every nested object present; [update_check] raises
    [AttributeError] on [self._get_sched_policy().name], and the module
    run fails with that message.  On an entity without [cpu] it raises on
    [entity.cpu.architecture]. *)
Theorem update_check_raises_on_existing_cluster :
  populated cluster_full = true /\
  outcome (update_check params_minimal cluster_full engine)
    = Raise (AttributeError "name") /\
  snd (main params_minimal engine)
    = fail_json "'NoneType' object has no attribute 'name'" /\
  outcome (update_check params_policy cluster_without_cpu engine)
    = Raise (AttributeError "architecture").
Proof. repeat split; reflexivity. Qed.

(** C8 at failing inputs: with only [name] given, the built cluster has
    no [cpu] and checking it raises; with [cpu_type], [ksm: true] and
    [ksm_numa: true], the built cluster has [Ksm(enabled=True,
    merge_across_nodes=False)] and checking it against the same
    parameters returns [False] at the [ksm] comparison. *)
Theorem round_trip_fails :
  (exists c,
     outcome (build_entity params_minimal engine) = Ok c /\
     Cluster.cpu c = None /\
     outcome (update_check params_minimal c engine) = Raise (AttributeError "architecture")) /\
  (exists c,
     outcome (build_entity params_ksm engine) = Ok c /\
     Cluster.ksm c = Some (Ksm.mk (Some true) (Some false)) /\
     outcome (update_check params_ksm c engine) = Ok false).
Proof.
  split; eexists; repeat split; reflexivity.
Qed.

(** ** Effects: which requests are sent, and what the results depend on *)

Lemma pure_ret {A} (a : A) : pure (ret a).
Proof. now exists (Ok a). Qed.

Lemma pure_raise {A} e : pure (@raise A e).
Proof. now exists (Raise e). Qed.

Lemma pure_lift {A} (r : result A) : pure (lift r).
Proof. now exists r. Qed.

Lemma pure_getattr {A B} (o : option A) attr (f : A -> B) : pure (getattr o attr f).
Proof. destruct o; [apply pure_ret | apply pure_raise]. Qed.

Lemma pure_bind {A B} (m : Py A) (k : A -> Py B) :
  pure m -> (forall a, pure (k a)) -> pure (bind m k).
Proof.
  intros [[a|e] Hm] Hk.
  - destruct (Hk a) as [r Hr]. exists r. intros w. unfold bind.
    now rewrite Hm, Hr.
  - exists (Raise e). intros w. unfold bind. now rewrite Hm.
Qed.

Lemma pure_getattr2 {A B C} (o : option A) a1 (f1 : A -> option B) a2 (f2 : B -> C) :
  pure (getattr2 o a1 f1 a2 f2).
Proof.
  unfold getattr2. apply pure_bind; [apply pure_getattr|].
  intros a. apply pure_getattr.
Qed.

Lemma pure_if {A} (b : bool) (m1 m2 : Py A) : pure m1 -> pure m2 -> pure (if b then m1 else m2).
Proof. now destruct b. Qed.

Lemma pure_calls {A} (m : Py A) w : pure m -> calls (m w) = [].
Proof. intros [r H]. now rewrite H. Qed.

Lemma pure_indep {A} (m : Py A) w1 w2 : pure m -> m w1 = m w2.
Proof. intros [r H]. now rewrite !H. Qed.

Ltac solve_pure :=
  repeat first
    [ apply pure_ret | apply pure_raise | apply pure_lift
    | apply pure_getattr | apply pure_getattr2 | apply pure_if
    | apply pure_bind; [|intros ?]
    | match goal with |- pure (match ?o with _ => _ end) => destruct o end ].

(** All operands of [update_check] but the scheduling-policy one are
    pure. *)
Lemma update_check_operands_pure p e :
  Forall (fun op => pure op \/ op = sched_policy_operand p) (update_check_operands p e).
Proof.
  unfold update_check_operands.
  repeat (apply Forall_cons;
          [ first [ right; reflexivity | left; solve_pure ] | ]).
  apply Forall_nil.
Qed.

Lemma get_sched_policy_indep p w1 w2 :
  sched_policy_by_name w1 (scheduling_policy p) = sched_policy_by_name w2 (scheduling_policy p) ->
  _get_sched_policy p w1 = _get_sched_policy p w2.
Proof.
  intros H. destruct (serial_policy p) as [s|] eqn:E.
  - now rewrite !(get_sched_policy_set p _ s E), H.
  - now rewrite !(get_sched_policy_unset p _ E).
Qed.

Lemma bind_indep {A B} (m : Py A) (k : A -> Py B) w1 w2 :
  m w1 = m w2 -> (forall a, k a w1 = k a w2) -> bind m k w1 = bind m k w2.
Proof.
  intros Hm Hk. unfold bind. rewrite Hm.
  destruct (m w2) as [l [a|e]]; [now rewrite Hk | reflexivity].
Qed.

Lemma and_chain_indep ops w1 w2 :
  Forall (fun op : Py bool => op w1 = op w2) ops ->
  and_chain ops w1 = and_chain ops w2.
Proof.
  induction 1 as [|op ops Hop _ IH]; [reflexivity|].
  rewrite !and_chain_cons. unfold and_then. apply bind_indep; [exact Hop|].
  intros [|]; [exact IH | reflexivity].
Qed.

Lemma calls_get_sched_policy p w :
  calls (_get_sched_policy p w) =
  if is_set (serial_policy p) then [ListSchedulingPolicies (scheduling_policy p)] else [].
Proof.
  destruct (serial_policy p) as [s|] eqn:E.
  - now rewrite (get_sched_policy_set p w s E).
  - now rewrite (get_sched_policy_unset p w E).
Qed.

Lemma calls_build_entity p w :
  calls (build_entity p w) =
  if is_set (serial_policy p) then [ListSchedulingPolicies (scheduling_policy p)] else [].
Proof.
  unfold build_entity. rewrite calls_bind, calls_get_sched_policy.
  destruct (outcome (_get_sched_policy p w)); [|reflexivity].
  unfold lift, calls. simpl. now rewrite app_nil_r.
Qed.

Lemma calls_sched_policy_operand p w :
  calls (sched_policy_operand p w) =
  if is_set (serial_policy p) then [ListSchedulingPolicies (scheduling_policy p)] else [].
Proof.
  unfold sched_policy_operand. rewrite calls_bind, calls_get_sched_policy.
  destruct (outcome (_get_sched_policy p w)) as [sp|]; [|reflexivity].
  rewrite pure_calls; [now rewrite app_nil_r|]. solve_pure.
Qed.

Lemma pure_and_chain ops : Forall pure ops -> pure (and_chain ops).
Proof.
  induction 1 as [|op ops Hop Hops IH]; [apply pure_ret|].
  destruct ops as [|op' ops]; [exact Hop|].
  change (pure (and_then op (and_chain (op' :: ops)))).
  unfold and_then. apply pure_bind; [exact Hop|].
  intros [|]; [exact IH | apply pure_ret].
Qed.

Lemma calls_and_chain_pure_head (P : list call -> Prop) op rest w :
  pure op -> P [] -> P (calls (and_chain rest w)) ->
  P (calls (and_chain (op :: rest) w)).
Proof.
  intros Hop Hnil Hrest. rewrite and_chain_cons. unfold and_then.
  rewrite calls_bind, (pure_calls op w Hop).
  destruct (outcome (op w)) as [[|]|]; simpl; assumption.
Qed.

Lemma calls_and_chain_sched p post w :
  Forall pure post ->
  calls (and_chain (sched_policy_operand p :: post) w) = calls (sched_policy_operand p w).
Proof.
  intros Hpost. rewrite and_chain_cons. unfold and_then. rewrite calls_bind.
  destruct (outcome (sched_policy_operand p w)) as [[|]|]; try reflexivity.
  - rewrite (pure_calls _ w (pure_and_chain post Hpost)). apply app_nil_r.
  - apply app_nil_r.
Qed.

(** [update_check] sends nothing, or the one scheduling-policy lookup. *)
Lemma calls_update_check p e w :
  calls (update_check p e w) = [] \/
  calls (update_check p e w) =
    if is_set (serial_policy p) then [ListSchedulingPolicies (scheduling_policy p)] else [].
Proof.
  unfold update_check, update_check_operands.
  do 26 (apply calls_and_chain_pure_head; [solve_pure | now left | ]).
  right.
  rewrite calls_and_chain_sched; [apply calls_sched_policy_operand|].
  repeat (apply Forall_cons; [solve_pure|]). apply Forall_nil.
Qed.

Lemma update_check_indep p e w1 w2 :
  sched_policy_by_name w1 (scheduling_policy p) = sched_policy_by_name w2 (scheduling_policy p) ->
  update_check p e w1 = update_check p e w2.
Proof.
  intros H. unfold update_check. apply and_chain_indep.
  pose proof (update_check_operands_pure p e) as HF.
  rewrite Forall_forall in *. intros op Hin.
  destruct (HF op Hin) as [Hp | ->]; [now apply pure_indep|].
  unfold sched_policy_operand. apply bind_indep; [now apply get_sched_policy_indep|].
  intros sp. apply pure_indep. solve_pure.
Qed.

Lemma build_entity_indep p w1 w2 :
  sched_policy_by_name w1 (scheduling_policy p) = sched_policy_by_name w2 (scheduling_policy p) ->
  build_entity p w1 = build_entity p w2.
Proof.
  intros H. unfold build_entity. apply bind_indep; [now apply get_sched_policy_indep|].
  reflexivity.
Qed.

(** C5: [build_entity] and [update_check] are functions of the
    parameters, the entity and the engine's answer to the one lookup
    they may send: two runs that agree on these give the same requests,
    the same cluster value, the same boolean or the same exception; and
    the only effect of either is that lookup, never a write. *)
Theorem build_and_check_deterministic (p : Params) (e : Cluster.t) (w1 w2 : Remote) :
  sched_policy_by_name w1 (scheduling_policy p)
    = sched_policy_by_name w2 (scheduling_policy p) ->
  build_entity p w1 = build_entity p w2 /\
  update_check p e w1 = update_check p e w2 /\
  Forall (fun c => c = ListSchedulingPolicies (scheduling_policy p))
    (calls (build_entity p w1) ++ calls (update_check p e w1)) /\
  writes (calls (build_entity p w1) ++ calls (update_check p e w1)) = [].
Proof.
  intros H. split; [now apply build_entity_indep|].
  split; [now apply update_check_indep|].
  rewrite calls_build_entity.
  destruct (calls_update_check p e w1) as [-> | ->];
    destruct (is_set (serial_policy p)); simpl; repeat constructor.
Qed.

Lemma build_and_check_deterministic_witness :
  build_entity params_policy engine = build_entity params_policy engine_other /\
  update_check params_policy cluster_full engine
    = update_check params_policy cluster_full engine_other.
Proof.
  destruct (build_and_check_deterministic params_policy cluster_full engine engine_other
              eq_refl) as (H1 & H2 & _).
  split; [exact H1 | exact H2].
Defined.

(** ** The module run *)

Lemma writes_app l1 l2 : writes (l1 ++ l2) = (writes l1 ++ writes l2)%list.
Proof. apply filter_app. Qed.

Lemma writes_build_entity p w : writes (calls (build_entity p w)) = [].
Proof.
  rewrite calls_build_entity. now destruct (is_set (serial_policy p)).
Qed.

Lemma writes_update_check p e w : writes (calls (update_check p e w)) = [].
Proof.
  destruct (calls_update_check p e w) as [-> | ->]; [reflexivity|].
  now destruct (is_set (serial_policy p)).
Qed.

(** What [create] sends and returns, case by case. *)
Lemma create_run p w :
  create p w =
  match cluster_by_name w (name p) with
  | Raise x => ([ListClusters (name p)], Raise x)
  | Ok (Some ent) =>
      let u := update_check p ent w in
      match outcome u with
      | Raise x => (ListClusters (name p) :: calls u, Raise x)
      | Ok true => (ListClusters (name p) :: calls u, Ok (representation false ent))
      | Ok false =>
          let b := build_entity p w in
          match outcome b with
          | Raise x => (ListClusters (name p) :: calls u ++ calls b, Raise x)
          | Ok d =>
              (ListClusters (name p) :: calls u ++ calls b
                 ++ [UpdateCluster (Cluster.id ent) d],
               match update_response w (Cluster.id ent) d with
               | Ok c => Ok (representation true c)
               | Raise x => Raise x
               end)
          end
      end
  | Ok None =>
      let b := build_entity p w in
      match outcome b with
      | Raise x => (ListClusters (name p) :: calls b, Raise x)
      | Ok d =>
          (ListClusters (name p) :: calls b ++ [AddCluster d],
           match add_response w d with
           | Ok c => Ok (representation true c)
           | Raise x => Raise x
           end)
      end
  end%list.
Proof.
  unfold create, bind, search_cluster_by_name, request, ret.
  destruct (cluster_by_name w (name p)) as [[ent|]|x]; simpl; [| |reflexivity].
  - destruct (update_check p ent w) as [lu [[|]|x]]; simpl;
      rewrite ?app_nil_r; try reflexivity.
    destruct (build_entity p w) as [lb [d|x]]; simpl; [|reflexivity].
    destruct (update_response w (Cluster.id ent) d); simpl; now rewrite ?app_nil_r.
  - destruct (build_entity p w) as [lb [d|x]]; simpl; [|reflexivity].
    destruct (add_response w d); simpl; now rewrite ?app_nil_r.
Qed.

Lemma remove_run p w :
  remove p w =
  match cluster_by_name w (name p) with
  | Raise x => ([ListClusters (name p)], Raise x)
  | Ok (Some ent) =>
      ([ListClusters (name p); RemoveCluster (Cluster.id ent)],
       match remove_response w (Cluster.id ent) with
       | Ok _ => Ok (representation true ent)
       | Raise x => Raise x
       end)
  | Ok None =>
      ([ListClusters (name p)],
       Ok {| changed := false; ret_id := None; ret_cluster := None |})
  end.
Proof.
  unfold remove, bind, search_cluster_by_name, request, ret.
  destruct (cluster_by_name w (name p)) as [[ent|]|x]; simpl; try reflexivity.
  destruct (remove_response w (Cluster.id ent)); reflexivity.
Qed.

Lemma main_with_run create' remove' p w :
  main_with create' remove' p w =
  ((calls (dispatch create' remove' p w) ++ [CloseConnection])%list,
   match outcome (dispatch create' remove' p w) with
   | Ok r => exit_json r
   | Raise x => fail_json (exn_str x)
   end).
Proof.
  unfold main_with. now destruct (dispatch create' remove' p w).
Qed.

(** C4: whatever the reconciler behind [main] is, an exception it
    raises ends the run in [fail_json] with [msg] the string of that
    exception, after the requests sent so far and with the connection
    closed; and [main] reports success only when no exception was
    raised. *)
Theorem main_fails_with_exception_message
  (create' remove' : Params -> Py Ret) (p : Params) (w : Remote) (e : exn) :
  outcome (dispatch create' remove' p w) = Raise e ->
  main_with create' remove' p w =
    ((calls (dispatch create' remove' p w) ++ [CloseConnection])%list,
     fail_json (exn_str e)) /\
  forall r, snd (main_with create' remove' p w) <> exit_json r.
Proof.
  intros H. rewrite main_with_run, H. split; [reflexivity|].
  intros r. simpl. discriminate.
Qed.

Lemma main_fails_with_exception_message_witness :
  main params_minimal engine =
    ([ListClusters "mycluster"; CloseConnection],
     fail_json "'NoneType' object has no attribute 'name'").
Proof.
  exact (proj1 (main_fails_with_exception_message create remove params_minimal engine
                  (AttributeError "name") eq_refl)).
Defined.

(** Errors of the SDK itself end the run the same way. *)
Lemma main_reports_sdk_errors p w x :
  cluster_by_name w (name p) = Raise x ->
  main p w = ([ListClusters (name p); CloseConnection], fail_json (exn_str x)).
Proof.
  intros H. unfold main. rewrite main_with_run. unfold dispatch.
  destruct (state p); rewrite ?create_run, ?remove_run, H; reflexivity.
Qed.

Lemma main_run_present p w :
  state p = present ->
  main p w = ((calls (create p w) ++ [CloseConnection])%list,
              match outcome (create p w) with
              | Ok r => exit_json r
              | Raise x => fail_json (exn_str x)
              end).
Proof.
  intros H. unfold main. rewrite main_with_run. unfold dispatch. now rewrite H.
Qed.

Lemma main_run_absent p w :
  state p = absent ->
  main p w = ((calls (remove p w) ++ [CloseConnection])%list,
              match outcome (remove p w) with
              | Ok r => exit_json r
              | Raise x => fail_json (exn_str x)
              end).
Proof.
  intros H. unfold main. rewrite main_with_run. unfold dispatch. now rewrite H.
Qed.

Ltac simpl_writes :=
  simpl; rewrite ?writes_app; simpl;
  rewrite ?writes_app, ?writes_update_check, ?writes_build_entity; simpl.

(** C2, amended: [main] looks the cluster up by name.  With
    [state = present] it adds the built entity when there is no such
    cluster, updates the cluster with the built entity when
    [update_check] returns [False], and sends no write when it returns
    [True]; with [state = absent] it removes the cluster when there is
    one.  In each of these cases it exits with the representation (id
    and attributes) of the cluster added, updated, found or removed.
    With [state = absent] and no such cluster it sends no write and
    exits successfully without id and attributes; that is the only
    successful exit without them. *)
Theorem reconciler_acts_on_lookup (p : Params) (w : Remote) :
  (state p = present -> cluster_by_name w (name p) = Ok None ->
   forall d c, outcome (build_entity p w) = Ok d -> add_response w d = Ok c ->
     writes (fst (main p w)) = [AddCluster d] /\
     snd (main p w) = exit_json (representation true c)) /\
  (state p = present ->
   forall ent, cluster_by_name w (name p) = Ok (Some ent) ->
     (outcome (update_check p ent w) = Ok true ->
        writes (fst (main p w)) = [] /\
        snd (main p w) = exit_json (representation false ent)) /\
     (outcome (update_check p ent w) = Ok false ->
      forall d c, outcome (build_entity p w) = Ok d ->
        update_response w (Cluster.id ent) d = Ok c ->
        writes (fst (main p w)) = [UpdateCluster (Cluster.id ent) d] /\
        snd (main p w) = exit_json (representation true c))) /\
  (state p = absent ->
   forall ent, cluster_by_name w (name p) = Ok (Some ent) ->
     remove_response w (Cluster.id ent) = Ok tt ->
     writes (fst (main p w)) = [RemoveCluster (Cluster.id ent)] /\
     snd (main p w) = exit_json (representation true ent)) /\
  (state p = absent -> cluster_by_name w (name p) = Ok None ->
   writes (fst (main p w)) = [] /\
   snd (main p w) = exit_json {| changed := false; ret_id := None; ret_cluster := None |}) /\
  (forall r, snd (main p w) = exit_json r ->
     (ret_cluster r = None <->
      state p = absent /\ cluster_by_name w (name p) = Ok None) /\
     (forall c, ret_cluster r = Some c -> ret_id r = Cluster.id c)).
Proof.
  repeat apply conj.
  - intros Hs Hl d c Hd Hc. rewrite (main_run_present p w Hs), create_run, Hl.
    cbv zeta. rewrite Hd, Hc. simpl_writes. auto.
  - intros Hs ent Hl. rewrite (main_run_present p w Hs), create_run, Hl. cbv zeta.
    split.
    + intros Hu. rewrite Hu. simpl_writes. auto.
    + intros Hu d c Hd Hc. rewrite Hu, Hd, Hc. simpl_writes. auto.
  - intros Hs ent Hl Hr. rewrite (main_run_absent p w Hs), remove_run, Hl, Hr.
    simpl. auto.
  - intros Hs Hl. rewrite (main_run_absent p w Hs), remove_run, Hl. simpl. auto.
  - intros r. destruct (state p) eqn:Hs.
    + rewrite (main_run_present p w Hs), create_run. cbv zeta.
      destruct (cluster_by_name w (name p)) as [[ent|]|x]; simpl.
      * destruct (outcome (update_check p ent w)) as [[|]|]; simpl;
          try discriminate.
        -- intros [= <-]. simpl. split; [|now intros c [= <-]].
           split; [discriminate | intros [H _]; discriminate].
        -- destruct (outcome (build_entity p w)); simpl; try discriminate.
           destruct (update_response w (Cluster.id ent) a); simpl; try discriminate.
           intros [= <-]. simpl. split; [|now intros c [= <-]].
           split; [discriminate | intros [H _]; discriminate].
      * destruct (outcome (build_entity p w)); simpl; try discriminate.
        destruct (add_response w a); simpl; try discriminate.
        intros [= <-]. simpl. split; [|now intros c [= <-]].
        split; [discriminate | intros [H _]; discriminate].
      * discriminate.
    + rewrite (main_run_absent p w Hs), remove_run.
      destruct (cluster_by_name w (name p)) as [[ent|]|x]; simpl.
      * destruct (remove_response w (Cluster.id ent)); simpl; try discriminate.
        intros [= <-]. simpl. split; [|now intros c [= <-]].
        split; [discriminate | intros [_ H]; discriminate].
      * intros [= <-]. simpl. split; [|discriminate]. tauto.
      * discriminate.
Qed.

Lemma reconciler_acts_on_lookup_witness :
  (exists d c,
     writes (fst (main params_fresh engine)) = [AddCluster d] /\
     snd (main params_fresh engine) = exit_json (representation true c)) /\
  (exists d c,
     writes (fst (main params_memory engine)) = [UpdateCluster (Cluster.id cluster_full) d] /\
     snd (main params_memory engine) = exit_json (representation true c)) /\
  writes (fst (main params_absent engine)) = [RemoveCluster (Cluster.id cluster_full)] /\
  snd (main params_absent engine) = exit_json (representation true cluster_full).
Proof.
  split; [|split].
  - eexists. eexists.
    apply (proj1 (reconciler_acts_on_lookup params_fresh engine) eq_refl eq_refl);
      reflexivity.
  - eexists. eexists.
    apply (proj2 (proj1 (proj2 (reconciler_acts_on_lookup params_memory engine))
                    eq_refl cluster_full eq_refl) eq_refl);
      reflexivity.
  - exact (proj1 (proj2 (proj2 (reconciler_acts_on_lookup params_absent engine)))
             eq_refl cluster_full eq_refl eq_refl).
Defined.

(** C2 as stated fails: with [state = absent] and no cluster of that
    name the run succeeds, and returns neither id nor attributes. *)
Lemma main_absent_unknown_returns_no_representation :
  main params_absent_unknown engine =
    ([ListClusters "ghost"; CloseConnection],
     exit_json {| changed := false; ret_id := None; ret_cluster := None |}) /\
  ~ (forall p w r, snd (main p w) = exit_json r -> ret_cluster r <> None).
Proof.
  split; [reflexivity|].
  intros H. exact (H params_absent_unknown engine _ eq_refl eq_refl).
Qed.

(** C6, amended: building the desired entity sends exactly one request
    of the module's own, the scheduling-policy lookup, when
    [serial_policy] is given, and none otherwise; checking for
    differences sends that lookup at most once.  A run of [main] starts
    with the lookup of the cluster by name and ends with closing the
    connection; a run that reports a change has sent exactly one write
    (add, update or remove), a run that reports no change has sent
    none, and a failed run has sent at most one. *)
Theorem requests_of_the_module (p : Params) (e : Cluster.t) (w : Remote) :
  calls (build_entity p w) =
    (if is_set (serial_policy p)
     then [ListSchedulingPolicies (scheduling_policy p)] else []) /\
  (calls (update_check p e w) = [] \/
   calls (update_check p e w) = [ListSchedulingPolicies (scheduling_policy p)]) /\
  (exists rest, fst (main p w) = (ListClusters (name p) :: rest ++ [CloseConnection])%list) /\
  match snd (main p w) with
  | exit_json r => length (writes (fst (main p w))) = if changed r then 1%nat else 0%nat
  | fail_json _ => (length (writes (fst (main p w))) <= 1)%nat
  end.
Proof.
  split; [apply calls_build_entity|]. split.
  { destruct (calls_update_check p e w) as [H | H]; [now left|].
    rewrite H. destruct (is_set (serial_policy p)); auto. }
  destruct (state p) eqn:Hs.
  - rewrite (main_run_present p w Hs), create_run. cbv zeta.
    destruct (cluster_by_name w (name p)) as [[ent|]|x].
    + destruct (outcome (update_check p ent w)) as [[|]|];
        [ | destruct (outcome (build_entity p w)) as [d|];
            [destruct (update_response w (Cluster.id ent) d)|] | ];
        (split; [eexists; reflexivity | simpl_writes; auto]).
    + destruct (outcome (build_entity p w)) as [d|];
        [destruct (add_response w d)|];
        (split; [eexists; reflexivity | simpl_writes; auto]).
    + split; [now exists [] | simpl; auto].
  - rewrite (main_run_absent p w Hs), remove_run.
    destruct (cluster_by_name w (name p)) as [[ent|]|x].
    + destruct (remove_response w (Cluster.id ent));
        (split; [eexists; reflexivity | simpl; auto]).
    + split; [now exists [] | reflexivity].
    + split; [now exists [] | simpl; auto].
Qed.

(** C6 as stated fails: building the entity and checking for
    differences each send a request of their own, so an update takes
    four requests: the cluster lookup, two scheduling-policy lookups
    and the write. *)
Lemma update_takes_four_requests :
  calls (build_entity params_memory engine) = [ListSchedulingPolicies (Some "none")] /\
  calls (update_check params_memory cluster_full engine)
    = [ListSchedulingPolicies (Some "none")] /\
  filter is_lookup (fst (main params_memory engine))
    = [ListClusters "mycluster"; ListSchedulingPolicies (Some "none");
       ListSchedulingPolicies (Some "none")] /\
  length (writes (fst (main params_memory engine))) = 1%nat /\
  ~ (forall p e w, calls (build_entity p w) = [] /\ calls (update_check p e w) = []).
Proof.
  repeat split; try reflexivity.
  intros H. destruct (H params_memory cluster_full engine) as [H1 _]. discriminate H1.
Qed.

(** * Further properties of the module *)

(** ** Version strings *)

Lemma split_dot_nonempty s : split_dot s <> [].
Proof.
  destruct s as [|c r]; simpl; [discriminate|].
  destruct (Ascii.eqb c "."); [discriminate|].
  destruct (split_dot r); discriminate.
Qed.

Lemma split_dot_no_dot s : has_dot s = false -> split_dot s = [s].
Proof.
  induction s as [|c r IH]; simpl; [reflexivity|].
  destruct (Ascii.eqb c "."); simpl; [discriminate|].
  intros H. now rewrite (IH H).
Qed.

Lemma split_dot_app a r :
  has_dot a = false -> split_dot (a ++ String "." r) = a :: split_dot r.
Proof.
  induction a as [|c a IH]; simpl; [reflexivity|].
  destruct (Ascii.eqb c "."); simpl; [discriminate|].
  intros H. now rewrite (IH H).
Qed.

Lemma split_dot_has_dot s :
  has_dot s = true -> exists a b t, split_dot s = a :: b :: t.
Proof.
  induction s as [|c r IH]; simpl; [discriminate|].
  destruct (Ascii.eqb c "."); simpl.
  - intros _. destruct (split_dot r) as [|b t] eqn:E.
    + now destruct (split_dot_nonempty r).
    + eauto.
  - intros H. destruct (IH H) as (a & b & t & ->). eauto.
Qed.

Lemma py_int_raises_ValueError s e : py_int s = Raise e -> exists msg, e = ValueError msg.
Proof.
  unfold py_int. intros H.
  repeat match type of H with
         | context [match ?x with _ => _ end] => destruct x
         end; try discriminate; injection H as <-; eauto.
Qed.

(** X1: a version string without a ['.'] has no minor part:
    [__get_minor] raises [IndexError] exactly on such strings, and
    [__get_major] never does. *)
Theorem get_minor_IndexError_iff_no_dot (s : string) :
  (__get_minor (FV_str s) = Raise IndexError <-> has_dot s = false) /\
  __get_major (FV_str s) <> Raise IndexError.
Proof.
  split; [split|].
  - intros H. destruct (has_dot s) eqn:E; [|reflexivity].
    destruct (split_dot_has_dot s E) as (a & b & t & Hs).
    simpl in H. rewrite Hs in H. simpl in H.
    destruct (py_int b) as [z|e] eqn:Eb; simpl in H; [discriminate|].
    destruct (py_int_raises_ValueError b e Eb) as [msg ->]. discriminate.
  - intros H. simpl. now rewrite (split_dot_no_dot s H).
  - simpl. destruct (split_dot s) as [|a t] eqn:E.
    + now destruct (split_dot_nonempty s).
    + simpl. destruct (py_int a) as [z|e] eqn:Ea; simpl; [discriminate|].
      destruct (py_int_raises_ValueError a e Ea) as [msg ->]. discriminate.
Qed.

Lemma to_uint_nonnil n : Nat.to_uint n <> Decimal.Nil.
Proof.
  rewrite <- (DecimalNat.Unsigned.of_to n) at 1.
  rewrite DecimalNat.Unsigned.to_of. apply DecimalFacts.unorm_nonnil.
Qed.

Lemma digits_string_of_uint d acc seen :
  seen = true \/ d <> Decimal.Nil ->
  digits (Z.of_nat acc) seen (DecimalString.NilEmpty.string_of_uint d)
  = Some (Z.of_nat (Nat.of_uint_acc d acc)).
Proof.
  revert acc seen.
  induction d as [|d IH|d IH|d IH|d IH|d IH|d IH|d IH|d IH|d IH|d IH];
    intros acc seen H;
    [ destruct H as [-> | H]; [reflexivity | now destruct H] | .. ];
    cbn [DecimalString.NilEmpty.string_of_uint digits Nat.of_uint_acc];
    match goal with
    | |- (if is_digit ?c then _ else _) = _ =>
        change (is_digit c) with true; cbv iota
    end;
    rewrite Nat.tail_mul_spec;
    match goal with
    | |- digits ?z true _ = Some (Z.of_nat (Nat.of_uint_acc _ ?a)) =>
        replace z with (Z.of_nat a);
          [ apply IH; now left
          | cbn [nat_of_ascii]; cbv [nat_of_ascii N_of_ascii N_of_digits];
            simpl Z.of_nat at 2; lia ]
    end.
Qed.

Lemma has_dot_string_of_uint d :
  has_dot (DecimalString.NilEmpty.string_of_uint d) = false.
Proof. induction d; simpl; auto. Qed.

Lemma py_int_numeral n : py_int (numeral n) = Ok (Z.of_nat n).
Proof.
  unfold numeral.
  pose proof (to_uint_nonnil n) as Hn.
  rewrite <- (DecimalNat.Unsigned.of_to n) at 2. unfold Nat.of_uint.
  pose proof (digits_string_of_uint (Nat.to_uint n) 0 false (or_intror Hn)) as H.
  change (Z.of_nat 0) with 0 in H.
  destruct (Nat.to_uint n); [now destruct Hn | ..];
    unfold py_int; cbn [DecimalString.NilEmpty.string_of_uint lstrip];
    match goal with
    | |- context [is_space ?c] => change (is_space c) with false; cbv iota
    end;
    cbn [DecimalString.NilEmpty.string_of_uint] in H; rewrite H; reflexivity.
Qed.

(** X2: a compatibility version written ["M.m"] in decimal is read as
    major [M] and minor [m], and [build_entity]'s version object carries
    exactly these. *)
Theorem version_string_parses (M m : nat) (p : Params) :
  __get_major (FV_str (version_string M m)) = Ok (Some (Z.of_nat M)) /\
  __get_minor (FV_str (version_string M m)) = Ok (Some (Z.of_nat m)) /\
  (compatibility_version p = Some (version_string M m) ->
   build_version p = Ok (Some (Version.mk (Some (Z.of_nat M)) (Some (Z.of_nat m))))).
Proof.
  assert (Hs : split_dot (version_string M m) = [numeral M; numeral m]).
  { unfold version_string. simpl append.
    rewrite split_dot_app by apply has_dot_string_of_uint.
    now rewrite split_dot_no_dot by apply has_dot_string_of_uint. }
  assert (Hma : __get_major (FV_str (version_string M m)) = Ok (Some (Z.of_nat M))).
  { simpl. rewrite Hs. simpl. now rewrite py_int_numeral. }
  assert (Hmi : __get_minor (FV_str (version_string M m)) = Ok (Some (Z.of_nat m))).
  { simpl. rewrite Hs. simpl. now rewrite py_int_numeral. }
  repeat split; auto.
  intros Hp. unfold build_version. rewrite Hp.
  assert (Ht : str_truthy (Some (version_string M m)) = true).
  { unfold version_string, numeral. pose proof (to_uint_nonnil M) as HM.
    destruct (Nat.to_uint M); [now destruct HM | ..]; reflexivity. }
  rewrite Ht. cbn [fv_of_param]. now rewrite Hma, Hmi.
Qed.

Lemma version_string_parses_witness :
  build_version
    (params_version (Some (version_string 4 0)))
  = Ok (Some (Version.mk (Some 4) (Some 0))).
Proof.
  exact (proj2 (proj2 (version_string_parses 4 0
                         (params_version (Some (version_string 4 0))))) eq_refl).
Defined.

(** ** Where [update_check] stops *)

Lemma and_chain_ret_false rest w : and_chain (ret false :: rest) w = ([], Ok false).
Proof. now rewrite and_chain_cons. Qed.

Lemma and_chain_ret_true rest w : and_chain (ret true :: rest) w = and_chain rest w.
Proof.
  rewrite and_chain_cons. unfold and_then, bind, ret.
  now destruct (and_chain rest w).
Qed.

Lemma update_check_never_true_witness :
  outcome (update_check params_minimal cluster_full engine) <> Ok true.
Proof.
  exact (update_check_never_true_without_serial_policy
           params_minimal cluster_full engine eq_refl).
Defined.

(** X4: a difference in [comment], [description] or [switch_type] is
    reported at once: [update_check] returns [False] without sending a
    request and without touching the nested objects, whatever the rest
    of the entity looks like. *)
Theorem update_check_reports_flat_difference (p : Params) (e : Cluster.t) (w : Remote) :
  (exists c, comment p = Some c /\ Cluster.comment e <> Some c) \/
  (exists d, description p = Some d /\ Cluster.description e <> Some d) \/
  (exists s, switch_type p = Some s /\ Cluster.switch_type e <> Some s) ->
  update_check p e w = ([], Ok false).
Proof.
  intros H. unfold update_check, update_check_operands.
  destruct (equal String.eqb (comment p) (Cluster.comment e)) eqn:E1;
    [rewrite and_chain_ret_true | apply and_chain_ret_false].
  destruct (equal String.eqb (description p) (Cluster.description e)) eqn:E2;
    [rewrite and_chain_ret_true | apply and_chain_ret_false].
  destruct (equal_str SwitchType_image (switch_type p) (Cluster.switch_type e)) eqn:E3;
    [exfalso | apply and_chain_ret_false].
  destruct H as [(c & Hp & He) | [(d & Hp & He) | (s & Hp & He)]].
  - rewrite Hp in E1. simpl in E1.
    destruct (Cluster.comment e) as [c'|]; [|discriminate].
    apply String.eqb_eq in E1. congruence.
  - rewrite Hp in E2. simpl in E2.
    destruct (Cluster.description e) as [d'|]; [|discriminate].
    apply String.eqb_eq in E2. congruence.
  - rewrite Hp in E3.
    destruct s, (Cluster.switch_type e) as [[]|]; try discriminate; congruence.
Qed.

Lemma update_check_reports_flat_difference_witness :
  update_check params_comment cluster_without_cpu engine = ([], Ok false).
Proof.
  apply update_check_reports_flat_difference.
  left. exists "temporary". split; [reflexivity | discriminate].
Defined.

(** X5: on an entity without a [cpu] object, [update_check] sends
    nothing and never returns [True]: it returns [False] when comment,
    description or switch type already differ, and otherwise raises
    [AttributeError] on [entity.cpu.architecture]. *)
Theorem update_check_without_cpu (p : Params) (e : Cluster.t) (w : Remote) :
  Cluster.cpu e = None ->
  update_check p e w =
    ([], if flat_fields_equal p e then Raise (AttributeError "architecture")
         else Ok false).
Proof.
  intros Hc. unfold update_check, update_check_operands, flat_fields_equal.
  destruct (equal String.eqb (comment p) (Cluster.comment e));
    [rewrite and_chain_ret_true | apply and_chain_ret_false].
  destruct (equal String.eqb (description p) (Cluster.description e));
    [rewrite and_chain_ret_true | apply and_chain_ret_false].
  destruct (equal_str SwitchType_image (switch_type p) (Cluster.switch_type e));
    [rewrite and_chain_ret_true | apply and_chain_ret_false].
  rewrite and_chain_cons, Hc. reflexivity.
Qed.

Lemma update_check_without_cpu_witness :
  update_check params_policy cluster_without_cpu engine
  = ([], Raise (AttributeError "architecture")).
Proof.
  exact (update_check_without_cpu params_policy cluster_without_cpu engine eq_refl).
Defined.

(** ** When [build_entity] returns *)

Lemma map_py_RngSource_valid l rs :
  map_py RngSource_of l = Ok rs ->
  forallb (fun s => String.eqb s "hwrng" || String.eqb s "random")%bool l = true.
Proof.
  revert rs. induction l as [|s l IH]; simpl; intros rs; [reflexivity|].
  unfold RngSource_of at 1.
  destruct (String.eqb s "hwrng"); simpl.
  - destruct (map_py RngSource_of l) as [rs'|]; simpl; [|discriminate].
    intros _. now apply (IH rs').
  - destruct (String.eqb s "random"); simpl; [|discriminate].
    destruct (map_py RngSource_of l) as [rs'|]; simpl; [|discriminate].
    intros _. now apply (IH rs').
Qed.

Lemma build_cluster_well_formed p sp c : build_cluster p sp = Ok c -> well_formed p = true.
Proof.
  unfold build_cluster, well_formed. intros H.
  destruct (build_serial_number p) as [sn|] eqn:Esn; simpl in H; [|discriminate].
  destruct (build_rng_sources p) as [rs|] eqn:Ers; simpl in H; [|discriminate].
  destruct (build_cpu p) as [cp|] eqn:Ecpu; simpl in H; [|discriminate].
  destruct (build_version p) as [v|] eqn:Ev; simpl in H; [|discriminate].
  clear H. repeat (apply andb_true_iff; split).
  - unfold build_serial_number, SerialNumberPolicy_of in Esn.
    destruct (serial_policy p), (serial_policy_value p); simpl in *;
      try reflexivity; discriminate.
  - unfold build_rng_sources in Ers.
    destruct (rng_sources p) as [[|x l]|]; try reflexivity.
    destruct (map_py RngSource_of (x :: l)) as [r|] eqn:E; [|discriminate].
    exact (map_py_RngSource_valid _ _ E).
  - unfold build_cpu in Ecpu. destruct (cpu_arch p); [|reflexivity].
    simpl in Ecpu. discriminate.
  - unfold build_version, version_parses in *.
    destruct (str_truthy (compatibility_version p)); [|reflexivity]. simpl.
    destruct (__get_major _); simpl in *; [|discriminate].
    destruct (__get_minor _); simpl in *; [reflexivity|discriminate].
Qed.

(** X6: [build_entity] returns a cluster exactly when the
    scheduling-policy lookup (sent only with [serial_policy]) finds a
    policy and the parameter conversions succeed: [serial_policy_value]
    does not come without [serial_policy], every [rng_sources] element
    is ["hwrng"] or ["random"], [cpu_arch] is not given (its string is
    no [Architecture], so the [Cpu] object rejects it), and a non-empty
    [compatibility_version] has integer major and minor parts. *)
Theorem build_entity_returns_iff (p : Params) (w : Remote) :
  (exists c, outcome (build_entity p w) = Ok c) <->
  sched_lookup_ok w p = true /\ well_formed p = true.
Proof.
  rewrite outcome_build_entity. split.
  - intros [c H]. destruct (serial_policy p) as [s|] eqn:E.
    + rewrite (get_sched_policy_set p w s E) in H. simpl in H.
      unfold sched_lookup_ok. rewrite E.
      destruct (sched_policy_by_name w (scheduling_policy p)) as [[sp|]|];
        try discriminate.
      split; [reflexivity | exact (build_cluster_well_formed _ _ _ H)].
    + rewrite (get_sched_policy_unset p w E) in H. simpl in H.
      unfold sched_lookup_ok. rewrite E.
      split; [reflexivity | exact (build_cluster_well_formed _ _ _ H)].
  - intros [Hl Hw]. destruct (get_sched_policy_returns p w Hl) as [sp ->].
    exact (build_cluster_total p sp Hw).
Qed.

(** X7: [serial_policy_value] without [serial_policy] makes
    [build_entity] raise [ValueError] from [SerialNumberPolicy(None)],
    before any request is sent and whatever the other parameters are. *)
Theorem build_entity_serial_value_alone (p : Params) (w : Remote) :
  serial_policy p = None ->
  serial_policy_value p <> None ->
  build_entity p w = ([], Raise (ValueError "None is not a valid SerialNumberPolicy")).
Proof.
  intros Hs Hv. rewrite (build_entity_unset p w Hs). f_equal.
  unfold build_cluster, build_serial_number. rewrite Hs.
  destruct (serial_policy_value p); [reflexivity | now destruct Hv].
Qed.

Lemma build_entity_serial_value_alone_witness :
  build_entity params_serial_value engine
  = ([], Raise (ValueError "None is not a valid SerialNumberPolicy")).
Proof.
  apply build_entity_serial_value_alone; [reflexivity | discriminate].
Defined.

(** ** What [build_entity] puts into the nested objects *)

(** The cluster [build_entity] returns, field by field. *)
Lemma build_entity_inv p w c :
  outcome (build_entity p w) = Ok c ->
  exists sp,
    outcome (_get_sched_policy p w) = Ok sp /\
    build_serial_number p = Ok (Cluster.serial_number c) /\
    build_rng_sources p = Ok (Cluster.required_rng_sources c) /\
    build_version p = Ok (Cluster.version c) /\
    Cluster.migration c = build_migration p /\
    Cluster.fencing_policy c = build_fencing_policy p /\
    Cluster.ksm c = build_ksm p /\
    build_cpu p = Ok (Cluster.cpu c) /\
    Cluster.error_handling c =
      (if is_set (resilience_policy p)
       then Some (ErrorHandling.mk (resilience_policy p)) else None) /\
    Cluster.memory_policy c =
      (if is_set (memory_policy p)
       then Some (MemoryPolicy.mk (Some (MemoryOverCommit.mk (_get_memory_policy p))))
       else None) /\
    Cluster.display c =
      (if str_truthy (spice_proxy p) then Some (Display.mk (spice_proxy p)) else None) /\
    Cluster.comment c = comment p /\
    Cluster.description c = description p /\
    Cluster.switch_type c = switch_type p /\
    Cluster.ballooning_enabled c = ballooning p /\
    Cluster.gluster_service c = gluster p /\
    Cluster.virt_service c = virt p /\
    Cluster.threads_as_cores c = threads_as_cores p /\
    Cluster.ha_reservation c = ha_reservation p /\
    Cluster.trusted_service c = trusted_service p /\
    Cluster.maintenance_reason_required c = host_reason p /\
    Cluster.optional_reason c = vm_reason p.
Proof.
  rewrite outcome_build_entity.
  destruct (outcome (_get_sched_policy p w)) as [sp|]; [|discriminate].
  unfold build_cluster. intros H. exists sp.
  destruct (build_serial_number p) as [sn|]; simpl in H; [|discriminate].
  destruct (build_rng_sources p) as [rs|]; simpl in H; [|discriminate].
  destruct (build_cpu p) as [cp|]; simpl in H; [|discriminate].
  destruct (build_version p) as [v|]; simpl in H; [|discriminate].
  injection H as <-. simpl. repeat split; reflexivity.
Qed.

(** X8: the [enabled] flag of the built fencing policy is
    [fence_enabled or fence_skip_if_connectivity_broken or
    fence_skip_if_sd_active]: it is [True] as soon as one of the three
    is, also against [fence_enabled: false]; it is [False] only when
    none is true and [fence_skip_if_sd_active] is given as false;
    otherwise, for instance with [fence_enabled: false] alone, it is
    [None].  The [skip_if_sd_active] object is built only for
    [fence_skip_if_sd_active: true]. *)
Theorem built_fencing_policy_enabled (p : Params) (w : Remote) (c : Cluster.t)
  (f : FencingPolicy.t) :
  outcome (build_entity p w) = Ok c ->
  Cluster.fencing_policy c = Some f ->
  (FencingPolicy.enabled f = Some true <->
     fence_enabled p = Some true \/ fence_skip_if_connectivity_broken p = Some true
     \/ fence_skip_if_sd_active p = Some true) /\
  (FencingPolicy.enabled f = Some false <->
     fence_enabled p <> Some true /\ fence_skip_if_connectivity_broken p <> Some true
     /\ fence_skip_if_sd_active p = Some false) /\
  (FencingPolicy.skip_if_sd_active f <> None <-> fence_skip_if_sd_active p = Some true).
Proof.
  intros Hc Hf. apply build_entity_inv in Hc as (sp & _ & _ & _ & _ & _ & Hfp & _).
  rewrite Hfp in Hf. unfold build_fencing_policy in Hf.
  destruct (fence_enabled p) as [[|]|], (fence_skip_if_connectivity_broken p) as [[|]|],
    (fence_skip_if_sd_active p) as [[|]|], (fence_connectivity_threshold p);
    simpl in Hf; try discriminate; injection Hf as <-; simpl;
    repeat split; intros; cbv [py_or truthy] in *;
    repeat match goal with
           | H : _ /\ _ |- _ => destruct H
           | H : _ \/ _ |- _ => destruct H
           end;
    try congruence;
    first [ left; congruence | right; left; congruence | right; right; congruence ].
Qed.

Lemma built_fencing_policy_enabled_witness :
  exists c f,
    outcome (build_entity params_fence_disabled engine) = Ok c /\
    Cluster.fencing_policy c = Some f /\
    FencingPolicy.enabled f <> Some false.
Proof.
  eexists. eexists. split; [reflexivity|]. split; [reflexivity|].
  destruct (built_fencing_policy_enabled params_fence_disabled engine _ _
              eq_refl eq_refl) as (_ & H2 & _).
  intros H. apply H2 in H. destruct H as (_ & _ & H). discriminate H.
Defined.

(** X9: whenever [ksm] or [ksm_numa] is given, the built [Ksm] object
    has [merge_across_nodes = not ksm_numa], and checking the built
    cluster against the same parameters passes both KSM comparisons for
    every pair except [ksm: true] with [ksm_numa: true] and [ksm: false]
    without [ksm_numa]; on these two the check reports a difference. *)
Theorem built_ksm_round_trip (p : Params) (w : Remote) (c : Cluster.t) :
  outcome (build_entity p w) = Ok c ->
  group_set G_ksm p = true ->
  (exists k, Cluster.ksm c = Some k /\
             Ksm.merge_across_nodes k = Some (negb (truthy (ksm_numa p)))) /\
  exists b1 b2,
    outcome (nth 9 (update_check_operands p c) (ret true) w) = Ok b1 /\
    outcome (nth 10 (update_check_operands p c) (ret true) w) = Ok b2 /\
    (b1 && b2)%bool = ksm_round_trips (ksm p) (ksm_numa p).
Proof.
  intros Hc Hs.
  apply build_entity_inv in Hc as (sp & _ & _ & _ & _ & _ & _ & Hk & _).
  unfold update_check_operands. cbn [nth]. rewrite Hk.
  unfold build_ksm. simpl in Hs.
  destruct (ksm p) as [[|]|], (ksm_numa p) as [[|]|]; try discriminate; simpl;
    (split; [eexists; split; reflexivity|]);
    eexists; eexists; repeat split; reflexivity.
Qed.

Lemma built_ksm_round_trip_witness :
  exists c b1 b2,
    outcome (build_entity params_full engine) = Ok c /\
    outcome (nth 9 (update_check_operands params_full c) (ret true) engine) = Ok b1 /\
    outcome (nth 10 (update_check_operands params_full c) (ret true) engine) = Ok b2 /\
    (b1 && b2)%bool = true.
Proof.
  eexists.
  destruct (built_ksm_round_trip params_full engine _ eq_refl eq_refl)
    as (_ & b1 & b2 & H1 & H2 & H3).
  exists b1, b2. split; [reflexivity|]. split; [exact H1|]. split; [exact H2|].
  exact H3.
Defined.

(** ** Building and then checking *)

Lemma compare_with_refl {A} (eqb : A -> A -> bool) d :
  (forall x, eqb x x = true) -> agrees (compare_with eqb d d) = true.
Proof. intros H. destruct d; simpl; auto. Qed.

Lemma list_eqb_refl {A} (eqb : A -> A -> bool) l :
  (forall x, eqb x x = true) -> list_eqb eqb l l = true.
Proof. intros H. induction l; simpl; [reflexivity|]. now rewrite H, IHl. Qed.

Lemma sched_name_matches_lookup_ok w p :
  sched_name_matches w p = true -> sched_lookup_ok w p = true.
Proof.
  unfold sched_name_matches, sched_lookup_ok.
  destruct (serial_policy p); [|reflexivity].
  destruct (sched_policy_by_name w (scheduling_policy p)) as [[sp|]|]; auto.
Qed.

(** What full specification means for the builders. *)
Lemma fully_specified_shapes p :
  fully_specified p = true ->
  build_cpu p = Ok (Some (Cpu.mk None (cpu_type p))) /\
  build_ksm p = Some (Ksm.mk (py_or (ksm p) (ksm_numa p)) (py_not (ksm_numa p))) /\
  ksm_round_trips (ksm p) (ksm_numa p) = true /\
  (spice_proxy p = None \/ str_truthy (spice_proxy p) = true) /\
  build_fencing_policy p =
    Some (FencingPolicy.mk (Some true)
            (Some (SkipIfConnectivityBroken.mk (fence_skip_if_connectivity_broken p)
                     (fence_connectivity_threshold p)))
            (Some (SkipIfSdActive.mk (Some true)))) /\
  fence_skip_if_sd_active p = Some true /\
  (fence_enabled p = None \/ fence_enabled p = Some true) /\
  is_set (resilience_policy p) = true /\
  build_migration p =
    Some (MigrationOptions.mk (migration_auto_converge p)
            (Some (MigrationBandwidth.mk (migration_bandwidth p)
                     (migration_bandwidth_limit p)))
            (migration_compressed p)
            (Some (MigrationPolicy.mk (_get_policy_id p)))) /\
  (exists s, serial_policy p = Some s) /\
  is_set (memory_policy p) = true /\
  (compatibility_version p = None \/
   str_truthy (compatibility_version p) = true /\ version_parses p = true) /\
  (exists x l, rng_sources p = Some (x :: l) /\
     forallb (fun s => String.eqb s "hwrng" || String.eqb s "random")%bool (x :: l) = true).
Proof.
  unfold fully_specified. intros H.
  repeat (apply andb_true_iff in H as [H ?]).
  repeat match goal with |- _ /\ _ => split end; try assumption.
  - unfold build_cpu. destruct (cpu_arch p); [discriminate|].
    match goal with H : str_truthy (cpu_type p) = true |- _ => now rewrite H end.
  - unfold build_ksm.
    match goal with H : (is_set (ksm_numa p) || _)%bool = true |- _ => now rewrite H end.
  - destruct (spice_proxy p); simpl in *; auto.
  - unfold build_fencing_policy.
    destruct (fence_skip_if_sd_active p) as [[|]|]; try discriminate.
    destruct (fence_enabled p) as [[|]|], (fence_skip_if_connectivity_broken p) as [[|]|],
      (fence_connectivity_threshold p); simpl in *; try discriminate; reflexivity.
  - destruct (fence_skip_if_sd_active p) as [[|]|]; try discriminate. reflexivity.
  - destruct (fence_enabled p) as [[|]|]; simpl in *; auto; discriminate.
  - unfold build_migration.
    destruct (migration_policy p); [|discriminate].
    destruct (migration_bandwidth p), (migration_bandwidth_limit p) as [z|];
      simpl in *; try discriminate;
      try (destruct (z =? 0); simpl in *; try discriminate);
      destruct (migration_auto_converge p), (migration_compressed p); reflexivity.
  - destruct (serial_policy p); [eauto|discriminate].
  - destruct (compatibility_version p); simpl in *; [right|now left].
    match goal with H : (_ && version_parses p)%bool = true |- _ =>
      now apply andb_true_iff in H end.
  - destruct (rng_sources p) as [[|x l]|]; try discriminate. eauto.
Qed.

Lemma fully_specified_cpu p : fully_specified p = true -> cpu_arch p = None.
Proof.
  unfold fully_specified. intros H.
  repeat (apply andb_true_iff in H as [H ?]).
  destruct (cpu_arch p); [discriminate|reflexivity].
Qed.

Lemma fully_specified_populated p w c :
  fully_specified p = true -> outcome (build_entity p w) = Ok c -> populated c = true.
Proof.
  intros H Hc. apply fully_specified_shapes in H
    as (Scpu & Sksm & _ & _ & Sfp & _ & _ & Seh & Smig & (s & Ss) & Smem & _ & (x & l & Sr & Sv)).
  apply build_entity_inv in Hc
    as (sp & _ & Hsn & Hrs & _ & Hmig & Hfp & Hksm & Hcpu & Heh & Hmem & _).
  unfold populated.
  rewrite Scpu in Hcpu. injection Hcpu as Hcpu. rewrite <- Hcpu.
  rewrite Hmig, Hfp, Hksm, Heh, Hmem, Sksm, Sfp, Seh, Smig, Smem.
  unfold build_serial_number in Hsn. rewrite Ss in Hsn. simpl in Hsn.
  injection Hsn as <-.
  unfold build_rng_sources in Hrs. rewrite Sr in Hrs.
  destruct (map_py_RngSource_total _ Sv) as [rs Hrs']. rewrite Hrs' in Hrs.
  simpl in Hrs. injection Hrs as <-. reflexivity.
Qed.

Lemma fully_specified_well_formed p : fully_specified p = true -> well_formed p = true.
Proof.
  intros H. pose proof H as H0. apply fully_specified_shapes in H0
    as (_ & _ & _ & _ & _ & _ & _ & _ & _ & (s & Ss) & _ & Sver & (x & l & Sr & Sv)).
  unfold well_formed. rewrite (fully_specified_cpu p H), Ss, Sr, Sv. simpl.
  destruct Sver as [-> | [_ ->]]; [reflexivity | apply orb_true_r].
Qed.

Lemma fully_specified_version_parses p :
  fully_specified p = true -> version_parses p = true.
Proof.
  intros H. apply fully_specified_shapes in H
    as (_ & _ & _ & _ & _ & _ & _ & _ & _ & _ & _ & Sver & _).
  destruct Sver as [E | [_ E]]; [|exact E].
  unfold version_parses. now rewrite E.
Qed.

(** X10: on fully specified parameters - every nested object the check
    reads through is built ([cpu] from [cpu_type], without [cpu_arch]),
    the KSM pair is one the check accepts, [fence_enabled] is not
    false, [spice_proxy] is not the empty string - and an engine whose scheduling policy carries the name
    asked for, [build_entity] returns a cluster and [update_check] of
    that cluster against the same parameters returns [True]. *)
Theorem build_then_check_passes (p : Params) (w : Remote) :
  fully_specified p = true ->
  sched_name_matches w p = true ->
  exists c,
    outcome (build_entity p w) = Ok c /\
    outcome (update_check p c w) = Ok true.
Proof.
  intros Hf Hm.
  pose proof (sched_name_matches_lookup_ok w p Hm) as Hl.
  destruct (get_sched_policy_returns p w Hl) as [sp Hsp].
  destruct (build_cluster_total p sp (fully_specified_well_formed p Hf)) as [c Hc].
  assert (Hb : outcome (build_entity p w) = Ok c)
    by now rewrite outcome_build_entity, Hsp.
  exists c. split; [exact Hb|].
  pose proof (fully_specified_populated p w c Hf Hb) as Hpop.
  pose proof (fully_specified_version_parses p Hf) as Hver.
  pose proof Hf as Hshapes. apply fully_specified_shapes in Hshapes
    as (Scpu & Sksm & Srt & Sproxy & Sfp & Ssd & Sfe & Seh & Smig & (s & Ss) & Smem
        & Sver & (x & l & Sr & Sv)).
  assert (Hset : is_set (serial_policy p) = true) by now rewrite Ss.
  destruct (and_chain_returns w _ (update_check_operands_return w p c Hpop Hset Hl Hver))
    as [b Hret].
  unfold update_check. rewrite Hret. f_equal.
  rewrite (and_chain_sound w _ _ (update_check_operands_refine w p c) b Hret).
  apply build_entity_inv in Hb
    as (sp' & _ & Hsn & Hrs & Hv & Hmig & Hfp & Hksm & Hcpu & Heh & Hmem & Hdis
        & Hcom & Hdesc & Hsw & Hbal & Hglu & Hvirt & Hthr & Hha & Htr & Hhr & Hvr).
  unfold build_serial_number in Hsn. rewrite Ss in Hsn. simpl in Hsn.
  injection Hsn as Hsn. symmetry in Hsn.
  unfold build_rng_sources in Hrs. rewrite Sr in Hrs.
  destruct (map_py RngSource_of (x :: l)) as [rs|] eqn:Emap; [|discriminate].
  simpl in Hrs. injection Hrs as Hrs. symmetry in Hrs.
  apply map_py_RngSource_image in Emap.
  assert (Hlook : looked_up_policy w p = sp /\
                  agrees (compare_with String.eqb (scheduling_policy p)
                            (nav sp SchedulingPolicy.name)) = true).
  { unfold looked_up_policy. rewrite Ss.
    rewrite (get_sched_policy_set p w s Ss) in Hsp. simpl in Hsp.
    unfold sched_name_matches in Hm.
    destruct (sched_policy_by_name w (scheduling_policy p)) as [[sp0|]|];
      try discriminate.
    injection Hsp as <-. split; [reflexivity | exact Hm]. }
  destruct Hlook as [Hlook Hname].
  assert (Hversion :
            agrees (compare_with Z.eqb
                      (parsed (__get_minor (fv_of_param (compatibility_version p))))
                      (nav (Cluster.version c) Version.minor)) = true /\
            agrees (compare_with Z.eqb
                      (parsed (__get_major (fv_of_param (compatibility_version p))))
                      (nav (Cluster.version c) Version.major)) = true).
  { unfold build_version in Hv. destruct Sver as [E | [E Hp]].
    - rewrite E. split; reflexivity.
    - rewrite E in Hv. unfold version_parses in Hp.
      destruct (__get_major (fv_of_param (compatibility_version p))) as [ma|];
        [|discriminate].
      destruct (__get_minor (fv_of_param (compatibility_version p))) as [mi|];
        [|discriminate].
      simpl in Hv. injection Hv as Hv. rewrite <- Hv. simpl.
      split; apply compare_with_refl, Z.eqb_refl. }
  destruct Hversion as [Hminor Hmajor].
  rewrite Scpu in Hcpu. injection Hcpu as Hcpu. symmetry in Hcpu.
  unfold operand_comparisons, comparisons_before_policy, comparisons_after_policy,
    guarded_comparisons, current_rng_sources.
  cbn [app].
  rewrite Hmig, Hfp, Hksm, Hcpu, Heh, Hmem, Hdis, Hcom, Hdesc, Hsw, Hbal, Hglu, Hvirt,
    Hthr, Hha, Htr, Hhr, Hvr, Sksm, Sfp, Seh, Smig, Smem, Hsn, Hrs, Hlook, Sr,
    (fully_specified_cpu p Hf).
  cbn [forallb nav option_map list_truthy].
  rewrite Hname, Hminor, Hmajor, Emap.
  repeat (apply andb_true_iff; split).
  all: try reflexivity.
  all: try (apply compare_with_refl; intros []; reflexivity).
  all: try (apply compare_with_refl; first [apply String.eqb_refl | apply Z.eqb_refl]).
  - destruct (ksm p) as [[|]|], (ksm_numa p) as [[|]|]; try discriminate; reflexivity.
  - destruct (ksm p) as [[|]|], (ksm_numa p) as [[|]|]; try discriminate; reflexivity.
  - destruct Sproxy as [-> | E]; [reflexivity|]. rewrite E. cbn [nav Display.proxy].
    apply compare_with_refl, String.eqb_refl.
  - destruct Sfe as [-> | ->]; reflexivity.
  - rewrite Ssd. reflexivity.
  - rewrite Ss. simpl. now destruct s.
  - destruct (migration_bandwidth p) as [[]|]; try reflexivity.
    apply compare_with_refl, Z.eqb_refl.
  - simpl. apply list_eqb_refl, String.eqb_refl.
Qed.

Lemma build_then_check_passes_witness :
  exists c,
    outcome (build_entity params_full engine) = Ok c /\
    outcome (update_check params_full c engine) = Ok true.
Proof.
  exact (build_then_check_passes params_full engine eq_refl eq_refl).
Defined.

(** ** The order of [rng_sources] *)

Lemma string_leb_trans a b c :
  String.leb a b = true -> String.leb b c = true -> String.leb a c = true.
Proof.
  unfold String.leb. revert b c.
  induction a as [|x a IH]; intros [|y b] [|z c]; simpl; try reflexivity;
    try discriminate.
  unfold Ascii.compare.
  destruct (N.compare_spec (N_of_ascii x) (N_of_ascii y)) as [Exy|Lxy|Gxy];
    destruct (N.compare_spec (N_of_ascii y) (N_of_ascii z)) as [Eyz|Lyz|Gyz];
    destruct (N.compare_spec (N_of_ascii x) (N_of_ascii z)) as [Exz|Lxz|Gxz];
    try discriminate; try reflexivity; try lia.
  apply IH.
Qed.

Lemma insert_sorted_perm x l : Permutation (x :: l) (insert_sorted x l).
Proof.
  induction l as [|y l IH]; simpl; [reflexivity|].
  destruct (String.leb x y); [reflexivity|].
  rewrite perm_swap. now apply perm_skip.
Qed.

Lemma sorted_perm l : Permutation l (sorted l).
Proof.
  induction l as [|x l IH]; simpl; [reflexivity|].
  rewrite <- insert_sorted_perm. now apply perm_skip.
Qed.

Lemma insert_sorted_Forall (P : string -> Prop) x l :
  P x -> Forall P l -> Forall P (insert_sorted x l).
Proof.
  intros Hx Hl. apply (Permutation_Forall (insert_sorted_perm x l)). now constructor.
Qed.

Lemma insert_sorted_ordered x l :
  Sorted.StronglySorted leb_true l -> Sorted.StronglySorted leb_true (insert_sorted x l).
Proof.
  induction 1 as [|y l Hs IH Hy]; simpl; [repeat constructor|].
  destruct (String.leb x y) eqn:E.
  - constructor; [now constructor|]. constructor; [exact E|].
    eapply Forall_impl; [|exact Hy]. intros z Hz. exact (string_leb_trans _ _ _ E Hz).
  - constructor; [exact IH|]. apply insert_sorted_Forall; [|exact Hy].
    destruct (String.leb_total x y) as [H|H]; [congruence | exact H].
Qed.

Lemma sorted_ordered l : Sorted.StronglySorted leb_true (sorted l).
Proof.
  induction l as [|x l IH]; simpl; [constructor | now apply insert_sorted_ordered].
Qed.

Lemma ordered_perm_eq l1 l2 :
  Sorted.StronglySorted leb_true l1 -> Sorted.StronglySorted leb_true l2 ->
  Permutation l1 l2 -> l1 = l2.
Proof.
  intros H1. revert l2. induction H1 as [|a l1 Hs IH Ha]; intros l2 H2 Hp.
  - now apply Permutation_nil in Hp.
  - destruct H2 as [|b l2 Hs2 Hb].
    + symmetry in Hp. now apply Permutation_nil in Hp.
    + assert (a = b) as <-.
      { assert (Hin1 : In a (b :: l2)) by (apply (Permutation_in _ Hp); now left).
        assert (Hin2 : In b (a :: l1))
          by (apply (Permutation_in _ (Permutation_sym Hp)); now left).
        rewrite Forall_forall in Ha, Hb.
        destruct Hin1 as [-> | Hin1]; [reflexivity|].
        destruct Hin2 as [-> | Hin2]; [reflexivity|].
        apply String.leb_antisym; [apply Ha, Hin2 | apply Hb, Hin1]. }
      f_equal. apply IH; [exact Hs2|]. exact (Permutation_cons_inv Hp).
Qed.

Lemma sorted_permutation l1 l2 : Permutation l1 l2 -> sorted l1 = sorted l2.
Proof.
  intros H. apply ordered_perm_eq; try apply sorted_ordered.
  now rewrite <- !sorted_perm.
Qed.

(** X11: the comparison of [rng_sources] does not depend on order: two
    tasks that list the same sources in a different order, against
    entities that report the same sources in a different order, get the
    same verdict. *)
Theorem rng_check_ignores_order (p1 p2 : Params) (e1 e2 : Cluster.t) (w : Remote)
  (l1 l2 : list string) (r1 r2 : list RngSource) :
  rng_sources p1 = Some l1 -> rng_sources p2 = Some l2 -> Permutation l1 l2 ->
  Cluster.required_rng_sources e1 = Some r1 ->
  Cluster.required_rng_sources e2 = Some r2 -> Permutation r1 r2 ->
  nth 32 (update_check_operands p1 e1) (ret true) w
  = nth 32 (update_check_operands p2 e2) (ret true) w.
Proof.
  intros Hp1 Hp2 Hl He1 He2 Hr.
  unfold update_check_operands. cbn [nth]. rewrite Hp1, Hp2, He1, He2.
  unfold bind, ret. cbn [app].
  rewrite (sorted_permutation _ _ (Permutation_map RngSource_image Hr)).
  destruct l1 as [|x1 t1], l2 as [|x2 t2]; try reflexivity.
  - now apply Permutation_nil in Hl.
  - symmetry in Hl. now apply Permutation_nil in Hl.
  - now rewrite (sorted_permutation _ _ Hl).
Qed.

Lemma rng_check_ignores_order_witness :
  nth 32 (update_check_operands params_full cluster_full) (ret true) engine
  = nth 32 (update_check_operands params_rng_swapped cluster_full) (ret true) engine.
Proof.
  apply (rng_check_ignores_order params_full params_rng_swapped cluster_full cluster_full
           engine ["random"; "hwrng"] ["hwrng"; "random"] [RNG_random] [RNG_random]);
    try reflexivity.
  apply perm_swap.
Defined.

(** ** The fixed tables *)

(** X12: the hard-coded tables are one-to-one: two tasks get the same
    migration policy id exactly when they name the same
    [migration_policy], and the same over-commit percentage exactly
    when they name the same [memory_policy]; a percentage, when there
    is one, is 100, 150 or 200. *)
Theorem fixed_tables_injective (p q : Params) :
  (_get_policy_id p = _get_policy_id q <-> migration_policy p = migration_policy q) /\
  (_get_memory_policy p = _get_memory_policy q <-> memory_policy p = memory_policy q) /\
  (forall z, _get_memory_policy p = Some z -> z = 100 \/ z = 150 \/ z = 200).
Proof.
  unfold _get_policy_id, _get_memory_policy.
  repeat split.
  - destruct (migration_policy p) as [[]|], (migration_policy q) as [[]|];
      intros H; try reflexivity; discriminate H.
  - now intros ->.
  - destruct (memory_policy p) as [[]|], (memory_policy q) as [[]|];
      intros H; try reflexivity; discriminate H.
  - now intros ->.
  - destruct (memory_policy p) as [[]|]; intros z [= <-]; auto.
Qed.

(** ** The scheduling policy and the migration options of the built cluster *)

(** X13: with [serial_policy] given, [build_entity] sends exactly the
    lookup of the scheduling policy.  If the engine knows no such
    policy it raises "Scheduling policy '...' was not found", whatever
    the other parameters are; if the lookup itself fails, that error is
    passed on; and a cluster it returns refers to the policy found by
    its id alone. *)
Theorem build_entity_with_serial_policy (p : Params) (w : Remote) (s : SerialNumberPolicy) :
  serial_policy p = Some s ->
  calls (build_entity p w) = [ListSchedulingPolicies (scheduling_policy p)] /\
  match sched_policy_by_name w (scheduling_policy p) with
  | Ok None => outcome (build_entity p w) = Raise (Exception (not_found_msg p))
  | Raise x => outcome (build_entity p w) = Raise x
  | Ok (Some sp) =>
      forall c, outcome (build_entity p w) = Ok c ->
        Cluster.scheduling_policy c
        = Some (SchedulingPolicy.mk (SchedulingPolicy.id sp) None)
  end.
Proof.
  intros Hs. split.
  - rewrite calls_build_entity, Hs. reflexivity.
  - rewrite outcome_build_entity, (get_sched_policy_set p w s Hs). simpl.
    destruct (sched_policy_by_name w (scheduling_policy p)) as [[sp|]|x];
      try reflexivity.
    unfold build_cluster. intros c H.
    destruct (build_serial_number p); simpl in H; [|discriminate].
    destruct (build_rng_sources p); simpl in H; [|discriminate].
    destruct (build_cpu p); simpl in H; [|discriminate].
    destruct (build_version p); simpl in H; [|discriminate].
    now injection H as <-.
Qed.

Lemma build_entity_with_serial_policy_witness :
  exists c,
    outcome (build_entity params_policy engine) = Ok c /\
    Cluster.scheduling_policy c
    = Some (SchedulingPolicy.mk (SchedulingPolicy.id policy_none) None).
Proof.
  eexists. split; [reflexivity|].
  apply (proj2 (build_entity_with_serial_policy params_policy engine SNP_vm eq_refl)).
  reflexivity.
Defined.

(** X14: in the built migration options the bandwidth object is there
    exactly when [migration_bandwidth] is given or
    [migration_bandwidth_limit] is a number other than 0; it then
    carries the limit whatever the assignment method is.  So
    [migration_bandwidth_limit: 0] alone builds migration options
    without a bandwidth object. *)
Theorem built_migration_bandwidth (p : Params) (w : Remote) (c : Cluster.t)
  (m : MigrationOptions.t) :
  outcome (build_entity p w) = Ok c ->
  Cluster.migration c = Some m ->
  (MigrationOptions.bandwidth m <> None <->
     migration_bandwidth p <> None \/
     exists z, migration_bandwidth_limit p = Some z /\ z <> 0) /\
  (forall b, MigrationOptions.bandwidth m = Some b ->
     MigrationBandwidth.custom_value b = migration_bandwidth_limit p /\
     MigrationBandwidth.assignment_method b = migration_bandwidth p) /\
  (MigrationOptions.policy m <> None <-> migration_policy p <> None).
Proof.
  intros Hc Hm. apply build_entity_inv in Hc as (sp & _ & _ & _ & _ & Hmig & _).
  rewrite Hmig in Hm. unfold build_migration in Hm.
  destruct (migration_bandwidth p) as [bw|], (migration_bandwidth_limit p) as [z|],
    (migration_auto_converge p), (migration_compressed p), (migration_policy p);
    simpl in Hm; try discriminate;
    try (destruct (Z.eqb_spec z 0) as [Ez|Ez]; simpl in Hm);
    injection Hm as <-; simpl;
    (split; [split|split; [|split]]); intros;
    repeat match goal with
           | H : _ \/ _ |- _ => destruct H
           | H : exists _, _ |- _ => destruct H
           | H : _ /\ _ |- _ => destruct H
           end;
    try congruence; try discriminate;
    try (match goal with H : Some _ = Some _ |- _ => injection H as <- end;
         simpl; split; reflexivity);
    try (left; discriminate);
    try (right; exists z; split; [reflexivity | assumption]).
Qed.

Lemma built_migration_bandwidth_witness :
  exists c m,
    outcome (build_entity params_zero_limit engine) = Ok c /\
    Cluster.migration c = Some m /\
    ~ MigrationOptions.bandwidth m <> None.
Proof.
  eexists. eexists. split; [reflexivity|]. split; [reflexivity|].
  destruct (built_migration_bandwidth params_zero_limit engine _ _ eq_refl eq_refl)
    as (H & _).
  intros Hb. apply H in Hb. destruct Hb as [Hb | (z & Hz & Hnz)].
  - now apply Hb.
  - injection Hz as <-. now apply Hnz.
Defined.

(** ** What the check does not look at *)

(** X15: [datacenter] and [network] are not tracked: changing them in
    the task (or [name] and [state]) changes neither the requests nor
    the verdict of [update_check]. *)
Theorem update_check_ignores_untracked (p : Params) (e : Cluster.t) (w : Remote)
  (dc net : option string) (nm : string) (st : State) :
  update_check (with_untracked p dc net nm st) e w = update_check p e w.
Proof. reflexivity. Qed.
